(** * Manual round-robin reassignment of a booking

    A shallow embedding of
    [packages/features/ee/round-robin/roundRobinManualReassignment.ts]:
    the orchestrator [roundRobinManualReassignment] and its helper
    [handleWorkflowsUpdate], written in a small state-and-error monad over
    a world made of the database, the JavaScript object heap and the trace
    of calls to the outside (storage writes, calendar sync, notification
    transport, workflow scheduler). *)

From stdpp Require Import base option list strings gmap.
From Stdlib Require Import ZArith.

Local Open Scope Z_scope.

(** ** JavaScript values *)

(** JSON columns that the orchestrator only passes along. *)
Definition Json := string.

(** [a || d] on a nullable string: [null], [undefined] and the empty string
    are falsy. *)
Definition str_or (o : option string) (d : string) : string :=
  match o with
  | Some s => if decide (s = "") then d else s
  | None => d
  end.

(** [a ?? d] on a nullable string: only [null] and [undefined] give [d]. *)
Definition str_nullish (o : option string) (d : string) : string :=
  default d o.

(** [a || undefined] on a nullable string. *)
Definition str_or_undefined (o : option string) : option string :=
  match o with
  | Some s => if decide (s = "") then None else Some s
  | None => None
  end.

(** [!n] on a nullable number: [null], [undefined] and [0] are falsy. *)
Definition num_falsy (o : option Z) : bool :=
  match o with
  | Some n => bool_decide (n = 0)
  | None => true
  end.

(** [n || 0] on a nullable number. *)
Definition num_or_zero (o : option Z) : Z := default 0 o.

(** [Array.prototype.includes] on an array of object references:
    SameValueZero on objects is identity of references. *)
Definition includes (arr : list nat) (r : nat) : bool :=
  existsb (Nat.eqb r) arr.

(** ** Data model *)

Inductive ErrorCode :=
  | InvalidRoundRobinHost
  | UserIsFixed.

(** What the function throws: the two [Error] messages of the loading
    steps, the two [ErrorCode]s, Prisma's record-not-found on an update and
    a read through a dangling object reference. *)
Inductive Err :=
  | BookingNotFound
  | EventTypeNotFound
  | Coded (c : ErrorCode)
  | PrismaRecordNotFound
  | TypeError.

Inductive WorkflowMethods := EMAIL | SMS | WHATSAPP.

Inductive WorkflowActions :=
  | EMAIL_HOST | EMAIL_ATTENDEE | SMS_ATTENDEE | SMS_NUMBER
  | EMAIL_ADDRESS | WHATSAPP_ATTENDEE | WHATSAPP_NUMBER.

Inductive WorkflowTriggerEvents :=
  | BEFORE_EVENT | EVENT_CANCELLED | NEW_EVENT | AFTER_EVENT
  | RESCHEDULE_EVENT.

#[global] Instance WorkflowMethods_eq_dec : EqDecision WorkflowMethods.
Proof. solve_decision. Defined.
#[global] Instance WorkflowActions_eq_dec : EqDecision WorkflowActions.
Proof. solve_decision. Defined.
#[global] Instance WorkflowTriggerEvents_eq_dec :
  EqDecision WorkflowTriggerEvents.
Proof. solve_decision. Defined.

(** The translator returned by [getTranslation(locale, ns)]: a pure
    function of its arguments, kept as the pair it is bound to. *)
Record Translator := { t_locale : string; t_ns : string }.

Definition getTranslation (locale ns : string) : Translator :=
  {| t_locale := locale; t_ns := ns |}.

Record Language := { translate : Translator; locale : string }.

Record User := {
  u_id : Z;
  u_name : option string;
  u_email : string;
  u_username : option string;
  u_timeZone : string;
  u_locale : option string;
  u_timeFormat : option Z;
  u_metadata : Json;
}.

Record Host := {
  user : User;
  isFixed : bool;
  priority : option Z;
  weight : option Z;
  weightAdjustment : option Z;
  schedule : option Json;
}.

(** A row of the attendee table. *)
Record Attendee := {
  a_id : Z;
  a_bookingId : option Z;
  a_name : string;
  a_email : string;
  a_timeZone : string;
  a_locale : option string;
  a_phoneNumber : option string;
}.

(** A row of the booking table. *)
Record BookingRow := {
  br_uid : string;
  br_userId : option Z;
  br_userPrimaryEmail : option string;
  br_eventTypeId : option Z;
  br_title : string;
  br_location : option string;
  br_startTime : string;
  br_endTime : string;
  br_responses : Json;
  br_customInputs : Json;
}.

(** The booking as [bookingSelect] returns it: the row with its user and
    attendees joined. *)
Record Booking := {
  b_id : Z;
  b_row : BookingRow;
  b_user : option User;
  b_attendees : list Attendee;
}.

Record Team := { team_id : Z; team_name : string; team_parentId : option Z }.

(** An element of [eventType.locations]. *)
Record Location := { loc_type : string; loc_rest : Json }.

(** The event type as stored; [getEventTypesFromDB] joins hosts and users. *)
Record EventTypeRow := {
  et_id : Z;
  et_slug : string;
  et_title : string;
  et_eventName : option string;
  et_description : option string;
  et_length : Z;
  et_teamId : option Z;
  et_team : option Team;
  et_hosts : list Host;
  et_users : list User;
  et_locationValues : list Location;
  et_bookingFields : Json;
  et_metadata : Json;
  et_ownerHideBranding : option bool;
}.

(** The loaded event type: the row, and [locations] as the array of the
    objects that the load created. *)
Record EventType := { et_row : EventTypeRow; et_locations : list nat }.

Record Reference := { ref_type : string; ref_uid : string; ref_meta : Json }.

Record Credential := { cred_id : Z; cred_userId : option Z; cred_key : Json }.

Record DestinationCalendar := {
  dc_id : Z;
  dc_userId : option Z;
  dc_integration : string;
  dc_externalId : string;
}.

Record WorkflowSel := {
  wf_trigger : WorkflowTriggerEvents;
  wf_time : option Z;
  wf_timeUnit : option string;
}.

Record WorkflowStep := {
  ws_action : WorkflowActions;
  ws_template : string;
  ws_workflow : WorkflowSel;
}.

Record WorkflowReminder := {
  wr_id : Z;
  wr_bookingUid : option string;
  wr_method : WorkflowMethods;
  wr_referenceId : option string;
  wr_workflowStep : option WorkflowStep;
}.

Record Workflow := {
  w_id : Z;
  w_trigger : WorkflowTriggerEvents;
  w_isActiveOnAll : bool;
  w_teamId : option Z;
  w_activeOn : list Z;
  w_activeOnTeams : list Z;
  w_steps : list WorkflowStep;
}.

Record Db := {
  db_bookings : gmap Z BookingRow;
  db_attendees : list Attendee;
  db_users : list User;
  db_eventTypes : gmap Z EventTypeRow;
  db_references : list (Z * Reference);
  db_credentials : list Credential;
  db_destinationCalendars : list DestinationCalendar;
  db_workflowReminders : list WorkflowReminder;
  db_workflows : list Workflow;
}.

(** ** Calendar events *)

Record Person := {
  p_email : string;
  p_name : string;
  p_timeZone : string;
  p_language : Language;
  p_phoneNumber : option string;
}.

Record TeamInfo := {
  ti_members : list Person;
  ti_name : string;
  ti_id : Z;
}.

(** [CalendarEvent], over the representation [P] of the people in it: an
    object reference in the heap, the person itself in a snapshot. *)
Record CalEvent (P : Type) := {
  ce_type : string;
  ce_title : string;
  ce_description : option string;
  ce_startTime : string;
  ce_endTime : string;
  ce_organizer : P;
  ce_attendees : list P;
  ce_uid : string;
  ce_destinationCalendar : list DestinationCalendar;
  ce_team : TeamInfo;
  ce_customInputs : option Json;
  ce_responses : Json;
  ce_cancellationReason : string;
}.
Arguments ce_type {P} _.
Arguments ce_title {P} _.
Arguments ce_description {P} _.
Arguments ce_startTime {P} _.
Arguments ce_endTime {P} _.
Arguments ce_organizer {P} _.
Arguments ce_attendees {P} _.
Arguments ce_uid {P} _.
Arguments ce_destinationCalendar {P} _.
Arguments ce_team {P} _.
Arguments ce_customInputs {P} _.
Arguments ce_responses {P} _.
Arguments ce_cancellationReason {P} _.

Abbreviation CalendarEvent := (CalEvent Person).

(** The same event with the organizer and attendees replaced. *)
Definition with_people {P Q} (e : CalEvent P) (o : Q) (ats : list Q)
  : CalEvent Q :=
  {| ce_type := ce_type e; ce_title := ce_title e;
     ce_description := ce_description e; ce_startTime := ce_startTime e;
     ce_endTime := ce_endTime e; ce_organizer := o; ce_attendees := ats;
     ce_uid := ce_uid e; ce_destinationCalendar := ce_destinationCalendar e;
     ce_team := ce_team e; ce_customInputs := ce_customInputs e;
     ce_responses := ce_responses e;
     ce_cancellationReason := ce_cancellationReason e |}.

(** ** The object heap

    The objects whose identity or sharing the function depends on: the
    elements of [eventType.locations], and a calendar event with the people
    it refers to. A reference is an index into the heap. The other fields
    of an event are kept as values. *)

Inductive Obj :=
  | OLocation (l : Location)
  | OPerson (p : Person)
  | OEvent (e : CalEvent nat).

Abbreviation Heap := (list Obj).

Definition heap_person (h : Heap) (r : nat) : option Person :=
  match h !! r with
  | Some (OPerson p) => Some p
  | _ => None
  end.

(** The calendar event that a reference denotes, with the people in it
    read through their references: what a callee that is handed the
    reference sees at that moment. *)
Definition snapshot (h : Heap) (r : nat) : option CalendarEvent :=
  match h !! r with
  | Some (OEvent e) =>
      o ← heap_person h (ce_organizer e);
      ats ← mapM (heap_person h) (ce_attendees e);
      Some (with_people e o ats)
  | _ => None
  end.

(** The references an event object holds, the object itself included. *)
Definition evt_refs (h : Heap) (r : nat) : list nat :=
  match h !! r with
  | Some (OEvent e) => r :: ce_organizer e :: ce_attendees e
  | _ => [r]
  end.

(** ** Calls to the outside *)

Record Recipient := {
  rc_user : User;
  rc_name : string;
  rc_username : string;
  rc_timeFormat : string;
  rc_language : Language;
}.

(** Argument of [getEventName]. *)
Record EventNameObj := {
  en_attendeeName : string;
  en_eventType : string;
  en_eventName : option string;
  en_teamName : option string;
  en_host : string;
  en_location : string;
  en_bookingFields : gmap string string;
  en_eventDuration : Z;
  en_t : Translator;
}.

(** Argument of [scheduleEmailReminder]. *)
Record EmailReminderArgs := {
  er_evt : CalendarEvent;
  er_videoCallUrl : string;
  er_eventType : EventTypeRow;
  er_bookerUrl : string;
  er_action : WorkflowActions;
  er_triggerEvent : WorkflowTriggerEvents;
  er_time : option Z;
  er_timeUnit : option string;
  er_sendTo : string;
  er_template : string;
}.

(** Argument of [scheduleWorkflowReminders]. *)
Record WorkflowRemindersArgs := {
  sw_workflows : list Workflow;
  sw_smsReminderNumber : option string;
  sw_calendarEvent : CalendarEvent;
  sw_videoCallUrl : string;
  sw_eventTypeSlug : string;
  sw_bookerUrl : string;
  sw_hideBranding : bool;
}.

(** The calls that leave the function, in the order they are made; an
    event handed over by reference is recorded as its snapshot. *)
Inductive Event :=
  | BookingUpdate (id : Z) (userId : Z) (title userPrimaryEmail : string)
  | AttendeeUpdate (id : Z) (name email timeZone : string)
      (locale : option string)
  | Reschedule (evt : CalendarEvent) (uid : string) (changed : bool)
      (remove : list DestinationCalendar)
  | ReplaceBookingReferences (bookingId : Z) (refs : list Reference)
  | SendRoundRobinScheduled (evt : CalendarEvent) (to : list Recipient)
  | SendRoundRobinCancelled (evt : CalendarEvent) (to : list Recipient)
      (metadata : Json)
  | ScheduleEmailReminder (args : EmailReminderArgs)
  | DeleteScheduledEmailReminder (id : Z) (referenceId : option string)
  | ScheduleWorkflowReminders (args : WorkflowRemindersArgs).

(** The calls that only [handleWorkflowsUpdate] makes. *)
Definition is_workflow_call (ev : Event) : bool :=
  match ev with
  | ScheduleEmailReminder _ | DeleteScheduledEmailReminder _ _
  | ScheduleWorkflowReminders _ => true
  | _ => false
  end.

(** ** The monad *)

Record World := { w_db : Db; w_heap : Heap; w_trace : list Event }.

(** A computation runs on a world and either throws or returns; what it
    did to the world before throwing stays done. *)
Definition M (A : Type) : Type := World → World * (Err + A).

Definition ret {A} (a : A) : M A := λ w, (w, inr a).

Definition throw {A} (e : Err) : M A := λ w, (w, inl e).

Definition bind {A B} (m : M A) (k : A → M B) : M B :=
  λ w, match m w with
       | (w', inr a) => k a w'
       | (w', inl e) => (w', inl e)
       end.

Notation "'let*' x := m 'in' k" := (bind m (λ x, k))
  (at level 20, x name, m at level 100, k at level 200, only parsing).
Notation "m ;;; k" := (bind m (λ _, k))
  (at level 100, k at level 200, right associativity, only parsing).

Definition get_db : M Db := λ w, (w, inr (w_db w)).

Definition put_db (db : Db) : M unit :=
  λ w, ({| w_db := db; w_heap := w_heap w; w_trace := w_trace w |}, inr tt).

Definition emit (ev : Event) : M unit :=
  λ w, ({| w_db := w_db w; w_heap := w_heap w;
           w_trace := w_trace w ++ [ev] |}, inr tt).

(** [for (const x of xs) { body }] *)
Fixpoint for_each {A} (xs : list A) (body : A → M unit) : M unit :=
  match xs with
  | [] => ret tt
  | x :: xs' => body x ;;; for_each xs' body
  end.

(** *** Objects *)

(** Creating objects: they get the next free references, in order. *)
Definition alloc_list (os : list Obj) : M (list nat) :=
  λ w, ({| w_db := w_db w; w_heap := w_heap w ++ os;
           w_trace := w_trace w |},
        inr (seq (length (w_heap w)) (length os))).

Definition alloc (o : Obj) : M nat :=
  λ w, ({| w_db := w_db w; w_heap := w_heap w ++ [o];
           w_trace := w_trace w |},
        inr (length (w_heap w))).

Definition readEvt (r : nat) : M CalendarEvent :=
  λ w, match snapshot (w_heap w) r with
       | Some e => (w, inr e)
       | None => (w, inl TypeError)
       end.

(** [evt.organizer = { ... }]: a new object, stored in the field. *)
Definition setOrganizer (r : nat) (p : Person) : M unit :=
  let* o := alloc (OPerson p) in
  λ w, match w_heap w !! r with
       | Some (OEvent e) =>
           ({| w_db := w_db w;
               w_heap := <[r := OEvent (with_people e o (ce_attendees e))]>
                           (w_heap w);
               w_trace := w_trace w |}, inr tt)
       | _ => (w, inl TypeError)
       end.

(** lodash's [cloneDeep] on an event: every object reachable from it is
    created anew. *)
Definition cloneDeep (r : nat) : M nat :=
  let* e := readEvt r in
  let* ats := alloc_list (OPerson <$> ce_attendees e) in
  let* o := alloc (OPerson (ce_organizer e)) in
  alloc (OEvent (with_people e o ats)).

(** [if (!x) throw new Error(e)] on a nullable [x]. *)
Definition guard_some {A} (o : option A) (e : Err) : M A :=
  match o with
  | Some a => ret a
  | None => throw e
  end.

(** *** Storage *)

Definition set_bookings (db : Db) (bs : gmap Z BookingRow) : Db :=
  {| db_bookings := bs; db_attendees := db_attendees db;
     db_users := db_users db; db_eventTypes := db_eventTypes db;
     db_references := db_references db;
     db_credentials := db_credentials db;
     db_destinationCalendars := db_destinationCalendars db;
     db_workflowReminders := db_workflowReminders db;
     db_workflows := db_workflows db |}.

Definition set_attendees (db : Db) (ats : list Attendee) : Db :=
  {| db_bookings := db_bookings db; db_attendees := ats;
     db_users := db_users db; db_eventTypes := db_eventTypes db;
     db_references := db_references db;
     db_credentials := db_credentials db;
     db_destinationCalendars := db_destinationCalendars db;
     db_workflowReminders := db_workflowReminders db;
     db_workflows := db_workflows db |}.

Definition set_references (db : Db) (rs : list (Z * Reference)) : Db :=
  {| db_bookings := db_bookings db; db_attendees := db_attendees db;
     db_users := db_users db; db_eventTypes := db_eventTypes db;
     db_references := rs;
     db_credentials := db_credentials db;
     db_destinationCalendars := db_destinationCalendars db;
     db_workflowReminders := db_workflowReminders db;
     db_workflows := db_workflows db |}.

Definition db_user (db : Db) (id : Z) : option User :=
  find (λ u, bool_decide (u_id u = id)) (db_users db).

Definition attendees_of (db : Db) (bookingId : Z) : list Attendee :=
  filter (λ a, a_bookingId a = Some bookingId) (db_attendees db).

Definition references_of (db : Db) (bookingId : Z) : list Reference :=
  snd <$> filter (λ r, r.1 = bookingId) (db_references db).

(** The joins of [bookingSelect]. *)
Definition join_booking (db : Db) (id : Z) (row : BookingRow) : Booking :=
  {| b_id := id; b_row := row; b_user := br_userId row ≫= db_user db;
     b_attendees := attendees_of db id |}.

Definition select_booking (db : Db) (id : Z) : option Booking :=
  join_booking db id <$> db_bookings db !! id.

(** [prisma.booking.findUnique({ where: { id }, select: bookingSelect })] *)
Definition prisma_booking_findUnique (id : Z) : M (option Booking) :=
  let* db := get_db in ret (select_booking db id).

Definition update_booking (userId : Z) (title userPrimaryEmail : string)
    (row : BookingRow) : BookingRow :=
  {| br_uid := br_uid row; br_userId := Some userId;
     br_userPrimaryEmail := Some userPrimaryEmail;
     br_eventTypeId := br_eventTypeId row; br_title := title;
     br_location := br_location row;
     br_startTime := br_startTime row; br_endTime := br_endTime row;
     br_responses := br_responses row;
     br_customInputs := br_customInputs row |}.

(** [prisma.booking.update({ where: { id }, data: { userId, title,
    userPrimaryEmail }, select: bookingSelect })]: the row is written, then
    selected again. *)
Definition prisma_booking_update (id userId : Z)
    (title userPrimaryEmail : string) : M Booking :=
  let* db := get_db in
  match db_bookings db !! id with
  | None => throw PrismaRecordNotFound
  | Some row =>
      let row' := update_booking userId title userPrimaryEmail row in
      let db' := set_bookings db (<[id := row']> (db_bookings db)) in
      put_db db' ;;;
      emit (BookingUpdate id userId title userPrimaryEmail) ;;;
      ret (join_booking db' id row')
  end.

Definition update_attendee (name email timeZone : string)
    (locale : option string) (a : Attendee) : Attendee :=
  {| a_id := a_id a; a_bookingId := a_bookingId a; a_name := name;
     a_email := email; a_timeZone := timeZone; a_locale := locale;
     a_phoneNumber := a_phoneNumber a |}.

Definition update_attendees (id : Z) (name email timeZone : string)
    (locale : option string) (ats : list Attendee) : list Attendee :=
  (λ a, if bool_decide (a_id a = id)
        then update_attendee name email timeZone locale a
        else a) <$> ats.

(** [prisma.attendee.update({ where: { id }, data: { name, email, timeZone,
    locale } })] *)
Definition prisma_attendee_update (id : Z) (name email timeZone : string)
    (locale : option string) : M unit :=
  let* db := get_db in
  if existsb (λ a, bool_decide (a_id a = id)) (db_attendees db) then
    put_db (set_attendees db
              (update_attendees id name email timeZone locale
                 (db_attendees db))) ;;;
    emit (AttendeeUpdate id name email timeZone locale)
  else throw PrismaRecordNotFound.

(** [getEventTypesFromDB(eventTypeId)]: the JSON column [locations] is
    parsed into objects created by this load. *)
Definition getEventTypesFromDB (id : Z) : M (option EventType) :=
  let* db := get_db in
  match db_eventTypes db !! id with
  | None => ret None
  | Some row =>
      let* locs := alloc_list (OLocation <$> et_locationValues row) in
      ret (Some {| et_row := row; et_locations := locs |})
  end.

(** [prisma.credential.findMany({ where: { userId } })] *)
Definition prisma_credential_findMany (userId : Z) : M (list Credential) :=
  let* db := get_db in
  ret (filter (λ c, cred_userId c = Some userId) (db_credentials db)).

(** [prisma.destinationCalendar.findFirst({ where: { userId } })] *)
Definition prisma_destinationCalendar_findFirst (userId : Z)
  : M (option DestinationCalendar) :=
  let* db := get_db in
  ret (find (λ c, bool_decide (dc_userId c = Some userId))
         (db_destinationCalendars db)).

Definition replace_references (bookingId : Z) (new : list Reference)
    (rs : list (Z * Reference)) : list (Z * Reference) :=
  filter (λ r, r.1 ≠ bookingId) rs ++ (pair bookingId <$> new).

(** Modelled from the spec: [BookingReferenceRepository.replaceBookingReferences]
    is not among the sources; the specification has it replace all stored
    calendar references of the meeting with exactly the given ones. *)
Definition replaceBookingReferences (bookingId : Z)
    (newReferencesToCreate : list Reference) : M unit :=
  let* db := get_db in
  put_db (set_references db
            (replace_references bookingId newReferencesToCreate
               (db_references db))) ;;;
  emit (ReplaceBookingReferences bookingId newReferencesToCreate).

(** The [where] clause of the reminder query in [handleWorkflowsUpdate]. *)
Definition pending_host_email_reminder (uid : string) (r : WorkflowReminder)
  : bool :=
  bool_decide (wr_bookingUid r = Some uid)
  && bool_decide (wr_method r = EMAIL)
  && match wr_workflowStep r with
     | Some step =>
         bool_decide (ws_action step = EMAIL_HOST)
         && bool_decide (wf_trigger (ws_workflow step)
                           ∈ [BEFORE_EVENT; NEW_EVENT; AFTER_EVENT])
     | None => false
     end.

Definition prisma_workflowReminder_findMany (uid : string)
  : M (list WorkflowReminder) :=
  let* db := get_db in
  ret (List.filter (pending_host_email_reminder uid)
         (db_workflowReminders db)).

(** The [where] clause of the workflow query in [handleWorkflowsUpdate];
    the last two alternatives are there only for a truthy team id and a
    truthy parent id. *)
Definition new_event_workflow_for (et : EventTypeRow) (w : Workflow) : bool :=
  bool_decide (w_trigger w = NEW_EVENT)
  && ((w_isActiveOnAll w && bool_decide (w_teamId w = et_teamId et))
      || bool_decide (et_id et ∈ w_activeOn w)
      || (negb (num_falsy (et_teamId et))
          && bool_decide (num_or_zero (et_teamId et) ∈ w_activeOnTeams w))
      || (negb (num_falsy (et_team et ≫= team_parentId))
          && w_isActiveOnAll w
          && bool_decide (w_teamId w = et_team et ≫= team_parentId))).

(** [include: { steps: { where: { action: EMAIL_HOST } } }] *)
Definition include_host_email_steps (w : Workflow) : Workflow :=
  {| w_id := w_id w; w_trigger := w_trigger w;
     w_isActiveOnAll := w_isActiveOnAll w; w_teamId := w_teamId w;
     w_activeOn := w_activeOn w; w_activeOnTeams := w_activeOnTeams w;
     w_steps := List.filter (λ s, bool_decide (ws_action s = EMAIL_HOST))
                  (w_steps w) |}.

Definition prisma_workflow_findMany (et : EventTypeRow) : M (list Workflow) :=
  let* db := get_db in
  ret (include_host_email_steps
         <$> List.filter (new_event_workflow_for et) (db_workflows db)).

(** ** Collaborators *)

Record ConferencingApp := { appSlug : option string; appLink : option string }.

Record UserMetadata := { defaultConferencingApp : option ConferencingApp }.

(** The functions imported from other packages that the orchestrator
    calls for a value. Those that read the database take it. *)
Class Collaborators := {
  OrganizerDefaultConferencingAppType : string;
  getEventName : EventNameObj → string;
  (** [getBookingResponsesSchema({ bookingFields, view })]
      then [safeParseAsync] *)
  safeParseResponses : Json → string → Json → option (gmap string string);
  (** [userMetadataSchema.safeParse] *)
  userMetadataSafeParse : Json → option UserMetadata;
  (** the [bookingLocation] of [getLocationValueForDB] *)
  getLocationValueForDB : string → list Location → string;
  getDestinationCalendar :
    Db → EventTypeRow → Booking → Z → bool → list DestinationCalendar;
  getTeamMembers :
    list Host → list Attendee → User → User → User → list Person;
  getCalEventResponses : Json → Booking → Json;
  isPrismaObjOrUndefined : Json → option Json;
  (** [dayjs(d).utc().format()] *)
  utcFormat : string → string;
  getTimeFormatStringFromUserTimeFormat : option Z → string;
  (** the [referencesToCreate] of [EventManager.reschedule], for the
      manager built from the user and the credentials *)
  referencesToCreate :
    Db → User → list Credential → CalendarEvent → string → bool →
    list DestinationCalendar → list Reference;
  getVideoCallUrlFromCalEvent : CalendarEvent → string;
  getBookerBaseUrl : Db → option Z → string;
}.

Section Reassignment.

Context `{Collaborators}.

(** [eventManager.reschedule(evt, uid, undefined, changed, calendars)] *)
Definition eventManager_reschedule (manager : User * list Credential)
    (evt : nat) (uid : string) (changed : bool)
    (remove : list DestinationCalendar) : M (list Reference) :=
  let* e := readEvt evt in
  let* db := get_db in
  emit (Reschedule e uid changed remove) ;;;
  ret (referencesToCreate db manager.1 manager.2 e uid changed remove).

Definition sendRoundRobinScheduledEmailsAndSMS (evt : nat)
    (to : list Recipient) : M unit :=
  let* e := readEvt evt in emit (SendRoundRobinScheduled e to).

Definition sendRoundRobinCancelledEmailsAndSMS (evt : nat)
    (to : list Recipient) (metadata : Json) : M unit :=
  let* e := readEvt evt in emit (SendRoundRobinCancelled e to metadata).

Definition scheduleEmailReminder (args : EmailReminderArgs) : M unit :=
  emit (ScheduleEmailReminder args).

Definition deleteScheduledEmailReminder (id : Z)
    (referenceId : option string) : M unit :=
  emit (DeleteScheduledEmailReminder id referenceId).

Definition scheduleWorkflowReminders (args : WorkflowRemindersArgs) : M unit :=
  emit (ScheduleWorkflowReminders args).

(** ** [handleWorkflowsUpdate] *)

(** The argument of [scheduleEmailReminder] in the loop. *)
Definition replacement (e : CalendarEvent) (videoCallUrl : string)
    (eventType : EventTypeRow) (bookerUrl : string) (newUser : User)
    (workflowStep : WorkflowStep) : EmailReminderArgs :=
  let workflow := ws_workflow workflowStep in
  {| er_evt := e; er_videoCallUrl := videoCallUrl;
     er_eventType := eventType; er_bookerUrl := bookerUrl;
     er_action := EMAIL_HOST;
     er_triggerEvent := wf_trigger workflow;
     er_time := wf_time workflow;
     er_timeUnit := wf_timeUnit workflow;
     er_sendTo := u_email newUser;
     er_template := ws_template workflowStep |}.

(** The body of the loop over the reminders. *)
Definition migrate_reminder (e : CalendarEvent) (videoCallUrl : string)
    (eventType : EventTypeRow) (bookerUrl : string) (newUser : User)
    (workflowReminder : WorkflowReminder) : M unit :=
  match wr_workflowStep workflowReminder with
  | Some workflowStep =>
      scheduleEmailReminder
        (replacement e videoCallUrl eventType bookerUrl newUser workflowStep)
  | None => ret tt
  end ;;;
  deleteScheduledEmailReminder (wr_id workflowReminder)
    (wr_referenceId workflowReminder).

Definition handleWorkflowsUpdate (booking : Booking) (newUser : User)
    (evt : nat) (eventType : EventType) (orgId : option Z) : M unit :=
  let* workflowReminders :=
    prisma_workflowReminder_findMany (br_uid (b_row booking)) in
  let* e := readEvt evt in
  let videoCallUrl := getVideoCallUrlFromCalEvent e in
  let* db := get_db in
  let bookerUrl := getBookerBaseUrl db orgId in
  for_each workflowReminders
    (migrate_reminder e videoCallUrl (et_row eventType) bookerUrl newUser) ;;;
  let* newEventWorkflows := prisma_workflow_findMany (et_row eventType) in
  scheduleWorkflowReminders
    {| sw_workflows := newEventWorkflows;
       sw_smsReminderNumber := None;
       sw_calendarEvent := e;
       sw_videoCallUrl := videoCallUrl;
       sw_eventTypeSlug := et_slug (et_row eventType);
       sw_bookerUrl := bookerUrl;
       sw_hideBranding :=
         default false (et_ownerHideBranding (et_row eventType)) |}.

(** ** [roundRobinManualReassignment] *)

Definition eventTypeHosts (eventType : EventTypeRow) : list Host :=
  match et_hosts eventType with
  | [] =>
      (λ u, {| user := u; isFixed := false; priority := Some 2;
               weight := Some 100; weightAdjustment := Some 0;
               schedule := None |}) <$> et_users eventType
  | hosts => hosts
  end.

Definition fixedHost (hosts : list Host) : option Host :=
  find isFixed hosts.

Definition currentRRHost (hosts : list Host) (attendees : list Attendee)
  : option Attendee :=
  find (λ attendee,
          existsb (λ host, negb (isFixed host)
                           && bool_decide (u_email (user host)
                                           = a_email attendee)) hosts)
       attendees.

Definition newUserHost (hosts : list Host) (newUserId : Z) : option Host :=
  find (λ host, bool_decide (u_id (user host) = newUserId)) hosts.

Definition hasOrganizerChanged (hosts : list Host) (booking : Booking)
    (newUserId : Z) : bool :=
  negb (bool_decide (is_Some (fixedHost hosts)))
  && negb (bool_decide (br_userId (b_row booking) = Some newUserId)).

(** The [bookingLocation] of the organizer-change branch. The object
    literal handed to [includes] is created first. *)
Definition bookingLocation (eventType : EventType) (booking : Booking)
    (newUser : User) : M (option string) :=
  let* literal :=
    alloc (OLocation {| loc_type := OrganizerDefaultConferencingAppType;
                        loc_rest := "" |}) in
  if includes (et_locations eventType) literal then
    let defaultLocationUrl : option string :=
      match userMetadataSafeParse (u_metadata newUser) with
      | Some data => defaultConferencingApp data ≫= appLink
      | None => None
      end in
    let currentBookingLocation :=
      str_or (br_location (b_row booking)) "integrations:daily" in
    ret (Some (str_or defaultLocationUrl
                 (getLocationValueForDB currentBookingLocation
                    (et_locationValues (et_row eventType)))))
  else ret (br_location (b_row booking)).

Definition newBookingTitle (eventType : EventTypeRow) (booking : Booking)
    (newUser : User) (newUserT : Translator) (location : option string)
  : string :=
  let responses : option (gmap string string) :=
    safeParseResponses (et_bookingFields eventType) "reschedule"
      (br_responses (b_row booking)) in
  getEventName
    {| en_attendeeName := str_or (responses ≫= (.!! "name")) "Nameless";
       en_eventType := et_title eventType;
       en_eventName := et_eventName eventType;
       en_teamName := team_name <$> et_team eventType;
       en_host := str_or (u_name newUser) "Nameless";
       en_location := str_or location "integrations:daily";
       en_bookingFields := default ∅ responses;
       en_eventDuration := et_length eventType;
       en_t := newUserT |}.

Definition organizerPerson (u : User) (t : Translator) : Person :=
  {| p_email := u_email u; p_name := str_or (u_name u) "";
     p_timeZone := u_timeZone u;
     p_language := {| translate := t; locale := str_or (u_locale u) "en" |};
     p_phoneNumber := None |}.

Definition attendeePerson (attendee : Attendee) : Person :=
  {| p_email := a_email attendee; p_name := a_name attendee;
     p_timeZone := a_timeZone attendee;
     p_language :=
       {| translate :=
            getTranslation (str_nullish (a_locale attendee) "en") "common";
          locale := str_nullish (a_locale attendee) "en" |};
     p_phoneNumber := str_or_undefined (a_phoneNumber attendee) |}.

Definition recipient (u : User) (t : Translator) : Recipient :=
  {| rc_user := u; rc_name := str_or (u_name u) "";
     rc_username := str_or (u_username u) "";
     rc_timeFormat := getTimeFormatStringFromUserTimeFormat (u_timeFormat u);
     rc_language := {| translate := t; locale := str_or (u_locale u) "en" |} |}.

(** The fields of the [evt] literal, over the references of its organizer
    and attendees. *)
Definition evt_literal {P} (eventType : EventTypeRow) (booking : Booking)
    (organizer : P) (attendeeList : list P)
    (destinationCalendar : list DestinationCalendar)
    (teamMembers : list Person) : CalEvent P :=
  {| ce_type := et_slug eventType;
     ce_title := br_title (b_row booking);
     ce_description := et_description eventType;
     ce_startTime := utcFormat (br_startTime (b_row booking));
     ce_endTime := utcFormat (br_endTime (b_row booking));
     ce_organizer := organizer;
     ce_attendees := attendeeList;
     ce_uid := br_uid (b_row booking);
     ce_destinationCalendar := destinationCalendar;
     ce_team :=
       {| ti_members := teamMembers;
          ti_name := str_or (team_name <$> et_team eventType) "";
          ti_id := num_or_zero (team_id <$> et_team eventType) |};
     ce_customInputs :=
       isPrismaObjOrUndefined (br_customInputs (b_row booking));
     ce_responses :=
       getCalEventResponses (et_bookingFields eventType) booking;
     ce_cancellationReason := "Manually re-assigned" |}.

Definition roundRobinManualReassignment (bookingId newUserId : Z)
    (orgId : option Z) : M Booking :=
  let* booking := prisma_booking_findUnique bookingId in
  let* booking := guard_some booking BookingNotFound in
  let* originalOrganizer := guard_some (b_user booking) BookingNotFound in
  let eventTypeId := br_eventTypeId (b_row booking) in
  if num_falsy eventTypeId then throw EventTypeNotFound else
  let* eventType := getEventTypesFromDB (num_or_zero eventTypeId) in
  let* eventType := guard_some eventType EventTypeNotFound in
  let hosts := eventTypeHosts (et_row eventType) in
  let* newUserHost :=
    guard_some (newUserHost hosts newUserId) (Coded InvalidRoundRobinHost) in
  if isFixed newUserHost then throw (Coded UserIsFixed) else
  let changed := hasOrganizerChanged hosts booking newUserId in
  let newUser := user newUserHost in
  let newUserT := getTranslation (str_or (u_locale newUser) "en") "common" in
  let originalOrganizerT :=
    getTranslation (str_or (u_locale originalOrganizer) "en") "common" in
  let* booking :=
    if changed then
      let* location := bookingLocation eventType booking newUser in
      prisma_booking_update bookingId newUserId
        (newBookingTitle (et_row eventType) booking newUser newUserT location)
        (u_email newUser)
    else
      match currentRRHost hosts (b_attendees booking) with
      | Some current =>
          prisma_attendee_update (a_id current) (str_or (u_name newUser) "")
            (u_email newUser) (u_timeZone newUser) (u_locale newUser) ;;;
          ret booking
      | None => ret booking
      end in
  let* db := get_db in
  let destinationCalendar :=
    getDestinationCalendar db (et_row eventType) booking newUserId changed in
  let teamMembers :=
    getTeamMembers hosts (b_attendees booking) newUser originalOrganizer
      newUser in
  let* attendeeList :=
    alloc_list (OPerson ∘ attendeePerson <$> b_attendees booking) in
  let* organizer := alloc (OPerson (organizerPerson newUser newUserT)) in
  let* evt :=
    alloc (OEvent (evt_literal (et_row eventType) booking organizer
                     attendeeList destinationCalendar teamMembers)) in
  let* credentials := prisma_credential_findMany (u_id newUser) in
  let eventManager := (newUser, credentials) in
  let* previousHostDestinationCalendar :=
    if changed
    then prisma_destinationCalendar_findFirst (u_id originalOrganizer)
    else ret None in
  let* results :=
    eventManager_reschedule eventManager evt (br_uid (b_row booking)) changed
      (option_list previousHostDestinationCalendar) in
  let newReferencesToCreate := results in
  replaceBookingReferences bookingId newReferencesToCreate ;;;
  sendRoundRobinScheduledEmailsAndSMS evt [recipient newUser newUserT] ;;;
  let* cancelledEvt := cloneDeep evt in
  setOrganizer cancelledEvt
    (organizerPerson originalOrganizer originalOrganizerT) ;;;
  sendRoundRobinCancelledEmailsAndSMS cancelledEvt
    [recipient originalOrganizer originalOrganizerT]
    (et_metadata (et_row eventType)) ;;;
  (if changed
   then handleWorkflowsUpdate booking newUser evt eventType orgId
   else ret tt) ;;;
  ret booking.

End Reassignment.

(** ** The calls of [handleWorkflowsUpdate] in closed form *)

Section WorkflowCalls.

Context `{Collaborators}.

(** The calls of one turn of the loop. *)
Definition migrate_calls (e : CalendarEvent) (videoCallUrl : string)
    (eventType : EventTypeRow) (bookerUrl : string) (newUser : User)
    (wr : WorkflowReminder) : list Event :=
  match wr_workflowStep wr with
  | Some step =>
      [ScheduleEmailReminder
         (replacement e videoCallUrl eventType bookerUrl newUser step)]
  | None => []
  end ++ [DeleteScheduledEmailReminder (wr_id wr) (wr_referenceId wr)].

(** The reminders that the query of [handleWorkflowsUpdate] finds. *)
Definition pending_reminders (db : Db) (booking : Booking)
  : list WorkflowReminder :=
  List.filter (pending_host_email_reminder (br_uid (b_row booking)))
    (db_workflowReminders db).

Definition new_event_args (db : Db) (e : CalendarEvent)
    (eventType : EventTypeRow) (orgId : option Z) : WorkflowRemindersArgs :=
  {| sw_workflows :=
       include_host_email_steps
         <$> List.filter (new_event_workflow_for eventType) (db_workflows db);
     sw_smsReminderNumber := None;
     sw_calendarEvent := e;
     sw_videoCallUrl := getVideoCallUrlFromCalEvent e;
     sw_eventTypeSlug := et_slug eventType;
     sw_bookerUrl := getBookerBaseUrl db orgId;
     sw_hideBranding := default false (et_ownerHideBranding eventType) |}.

(** All the calls, for the event [e] that the reference denotes. *)
Definition workflow_calls (db : Db) (booking : Booking) (newUser : User)
    (e : CalendarEvent) (eventType : EventTypeRow) (orgId : option Z)
  : list Event :=
  (pending_reminders db booking
     ≫= migrate_calls e (getVideoCallUrlFromCalEvent e) eventType
          (getBookerBaseUrl db orgId) newUser)
    ++ [ScheduleWorkflowReminders (new_event_args db e eventType orgId)].

End WorkflowCalls.

(** ** The reassignment in closed form *)

(** A call of the function on a world, with what its validation finds:
    the stored booking, its user, the event type and the target host. *)
Record Run := {
  r_world : World;
  r_bookingId : Z;
  r_newUserId : Z;
  r_orgId : option Z;
  r_row : BookingRow;
  r_organizer : User;
  r_eventType : EventTypeRow;
  r_host : Host;
}.

(** The call passes the validation. *)
Definition validated (r : Run) : Prop :=
  db_bookings (w_db (r_world r)) !! r_bookingId r = Some (r_row r)
  ∧ br_userId (r_row r) ≫= db_user (w_db (r_world r)) = Some (r_organizer r)
  ∧ num_falsy (br_eventTypeId (r_row r)) = false
  ∧ db_eventTypes (w_db (r_world r)) !! num_or_zero (br_eventTypeId (r_row r))
    = Some (r_eventType r)
  ∧ newUserHost (eventTypeHosts (r_eventType r)) (r_newUserId r)
    = Some (r_host r)
  ∧ isFixed (r_host r) = false.

Module Outcome.
Section Outcome.

Context `{Collaborators}.
Variable r : Run.

Definition booking : Booking :=
  join_booking (w_db (r_world r)) (r_bookingId r) (r_row r).

Definition hosts : list Host := eventTypeHosts (r_eventType r).

Definition changed : bool :=
  hasOrganizerChanged hosts booking (r_newUserId r).

Definition current : option Attendee :=
  currentRRHost hosts (b_attendees booking).

Definition newUser : User := user (r_host r).

Definition newUserT : Translator :=
  getTranslation (str_or (u_locale newUser) "en") "common".

Definition originalOrganizerT : Translator :=
  getTranslation (str_or (u_locale (r_organizer r)) "en") "common".

Definition title : string :=
  newBookingTitle (r_eventType r) booking newUser newUserT
    (br_location (r_row r)).

Definition row' : BookingRow :=
  update_booking (r_newUserId r) title (u_email newUser) (r_row r).

(** The database after the Mutating step. *)
Definition mutated_db : Db :=
  if changed then
    set_bookings (w_db (r_world r))
      (<[r_bookingId r := row']> (db_bookings (w_db (r_world r))))
  else
    match current with
    | Some a =>
        set_attendees (w_db (r_world r))
          (update_attendees (a_id a) (str_or (u_name newUser) "")
             (u_email newUser) (u_timeZone newUser) (u_locale newUser)
             (db_attendees (w_db (r_world r))))
    | None => w_db (r_world r)
    end.

(** The variable [booking] after the Mutating step. *)
Definition mutated_booking : Booking :=
  if changed then join_booking mutated_db (r_bookingId r) row' else booking.

Definition mutation : list Event :=
  if changed then
    [BookingUpdate (r_bookingId r) (r_newUserId r) title (u_email newUser)]
  else
    match current with
    | Some a =>
        [AttendeeUpdate (a_id a) (str_or (u_name newUser) "")
           (u_email newUser) (u_timeZone newUser) (u_locale newUser)]
    | None => []
    end.

Definition evt : CalendarEvent :=
  evt_literal (r_eventType r) mutated_booking
    (organizerPerson newUser newUserT)
    (attendeePerson <$> b_attendees mutated_booking)
    (getDestinationCalendar mutated_db (r_eventType r) mutated_booking
       (r_newUserId r) changed)
    (getTeamMembers hosts (b_attendees mutated_booking) newUser
       (r_organizer r) newUser).

(** The heap when the [evt] literal is reached: the objects of the world,
    the locations that loading the event type created, and on an organizer
    change the literal of [bookingLocation]. *)
Definition heap_before : Heap :=
  (w_heap (r_world r) ++ (OLocation <$> et_locationValues (r_eventType r)))
    ++ (if changed
        then [OLocation {| loc_type := OrganizerDefaultConferencingAppType;
                           loc_rest := "" |}]
        else []).

Definition attendee_objects : list Obj :=
  OPerson ∘ attendeePerson <$> b_attendees mutated_booking.

(** The reference of [evt], and the heap once it is built. *)
Definition evt_ref : nat :=
  length ((heap_before ++ attendee_objects)
            ++ [OPerson (organizerPerson newUser newUserT)]).

Definition evt_heap : Heap :=
  ((heap_before ++ attendee_objects)
     ++ [OPerson (organizerPerson newUser newUserT)])
    ++ [OEvent
          (evt_literal (r_eventType r) mutated_booking
             (length (heap_before ++ attendee_objects))
             (seq (length heap_before) (length attendee_objects))
             (getDestinationCalendar mutated_db (r_eventType r)
                mutated_booking (r_newUserId r) changed)
             (getTeamMembers hosts (b_attendees mutated_booking) newUser
                (r_organizer r) newUser))].

Definition cancelledEvt : CalendarEvent :=
  with_people evt (organizerPerson (r_organizer r) originalOrganizerT)
    (ce_attendees evt).

(** The reference of [cancelledEvt]. *)
Definition cancelled_ref : nat :=
  (length evt_heap + length (ce_attendees evt) + 1)%nat.

(** The heap at the end: after the heap of [evt] come the copies that
    [cloneDeep] made of the attendees and of the organizer, the copy of
    the event with its [organizer] field set, and the object that the
    field now refers to. *)
Definition final_heap : Heap :=
  evt_heap ++ (OPerson <$> ce_attendees evt)
    ++ [OPerson (ce_organizer evt);
        OEvent (with_people evt
                  (length evt_heap + length (ce_attendees evt) + 2)%nat
                  (seq (length evt_heap) (length (ce_attendees evt))));
        OPerson (organizerPerson (r_organizer r) originalOrganizerT)].

Definition credentials : list Credential :=
  filter (λ c, cred_userId c = Some (u_id newUser))
    (db_credentials mutated_db).

Definition removeFrom : list DestinationCalendar :=
  option_list
    (if changed
     then find (λ c, bool_decide (dc_userId c = Some (u_id (r_organizer r))))
            (db_destinationCalendars mutated_db)
     else None).

Definition uid : string := br_uid (b_row mutated_booking).

(** What the calendar sync returns. *)
Definition references : list Reference :=
  referencesToCreate mutated_db newUser credentials evt uid changed
    removeFrom.

(** The database at the end. *)
Definition final_db : Db :=
  set_references mutated_db
    (replace_references (r_bookingId r) references
       (db_references mutated_db)).

(** The calls of [handleWorkflowsUpdate]. *)
Definition workflows : list Event :=
  workflow_calls final_db mutated_booking newUser evt (r_eventType r)
    (r_orgId r).

(** The calls that follow the Mutating step, up to the notifications. *)
Definition sync_and_notify : list Event :=
  [Reschedule evt uid changed removeFrom;
   ReplaceBookingReferences (r_bookingId r) references;
   SendRoundRobinScheduled evt [recipient newUser newUserT];
   SendRoundRobinCancelled cancelledEvt
     [recipient (r_organizer r) originalOrganizerT]
     (et_metadata (r_eventType r))].

(** All the calls of the reassignment, in order. *)
Definition calls : list Event :=
  mutation ++ sync_and_notify ++ (if changed then workflows else []).

(** The world at the end. *)
Definition final_world : World :=
  {| w_db := final_db; w_heap := final_heap;
     w_trace := w_trace (r_world r) ++ calls |}.

End Outcome.
End Outcome.

(** The world when validation has loaded the event type [et]: the same
    database and trace, and the location objects on the heap. *)
Definition loaded (w : World) (et : EventTypeRow) : World :=
  {| w_db := w_db w;
     w_heap := w_heap w ++ (OLocation <$> et_locationValues et);
     w_trace := w_trace w |}.

(** The events handed to the calendar sync, in order. *)
Definition synced_events (trace : list Event) : list CalendarEvent :=
  omap (λ ev, match ev with
              | Reschedule e _ _ _ => Some e
              | _ => None
              end) trace.

(** ** Observations on a trace *)

(** The calendar-sync calls, with their arguments. *)
Definition sync_calls (trace : list Event)
  : list (CalendarEvent * string * bool * list DestinationCalendar) :=
  omap (λ ev, match ev with
              | Reschedule e uid changed remove =>
                  Some (e, uid, changed, remove)
              | _ => None
              end) trace.

(** The notifications: [true] for a scheduled one, [false] for a cancelled
    one, with the event and the recipients. *)
Definition notifications (trace : list Event)
  : list (bool * CalendarEvent * list Recipient) :=
  omap (λ ev, match ev with
              | SendRoundRobinScheduled e to => Some (true, e, to)
              | SendRoundRobinCancelled e to _ => Some (false, e, to)
              | _ => None
              end) trace.

(** The reminders deleted, by id and reference id. *)
Definition deleted_reminders (trace : list Event)
  : list (Z * option string) :=
  omap (λ ev, match ev with
              | DeleteScheduledEmailReminder id ref => Some (id, ref)
              | _ => None
              end) trace.

(** The replacement reminders scheduled. *)
Definition scheduled_reminders (trace : list Event)
  : list EmailReminderArgs :=
  omap (λ ev, match ev with
              | ScheduleEmailReminder args => Some args
              | _ => None
              end) trace.

(** The writes of the Mutating step. *)
Definition is_mutation (ev : Event) : bool :=
  match ev with
  | BookingUpdate _ _ _ _ | AttendeeUpdate _ _ _ _ _ => true
  | _ => false
  end.

(** The columns of a booking that [prisma.booking.update] is not given. *)
Definition kept_columns (row : BookingRow)
  : string * option Z * option string * string * string * Json * Json :=
  (br_uid row, br_eventTypeId row, br_location row, br_startTime row,
   br_endTime row, br_responses row, br_customInputs row).

(** What [prisma.attendee.update] is not given. *)
Definition kept_fields (a : Attendee) : Z * option Z * option string :=
  (a_id a, a_bookingId a, a_phoneNumber a).

(** The collaborators with other parsers of the user metadata and of the
    location. *)
Definition with_location_helpers (C : Collaborators)
    (parse : Json → option UserMetadata)
    (location : string → list Location → string) : Collaborators :=
  {| OrganizerDefaultConferencingAppType :=
       @OrganizerDefaultConferencingAppType C;
     getEventName := @getEventName C;
     safeParseResponses := @safeParseResponses C;
     userMetadataSafeParse := parse;
     getLocationValueForDB := location;
     getDestinationCalendar := @getDestinationCalendar C;
     getTeamMembers := @getTeamMembers C;
     getCalEventResponses := @getCalEventResponses C;
     isPrismaObjOrUndefined := @isPrismaObjOrUndefined C;
     utcFormat := @utcFormat C;
     getTimeFormatStringFromUserTimeFormat :=
       @getTimeFormatStringFromUserTimeFormat C;
     referencesToCreate := @referencesToCreate C;
     getVideoCallUrlFromCalEvent := @getVideoCallUrlFromCalEvent C;
     getBookerBaseUrl := @getBookerBaseUrl C |}.


(** ** Scenarios *)

Module Scenario.

(** Collaborators simple enough to read the results off. *)
#[export] Instance collaborators : Collaborators := {|
  OrganizerDefaultConferencingAppType := "conferencing";
  getEventName o :=
    en_eventType o +:+ " between " +:+ en_host o +:+ " and "
      +:+ en_attendeeName o +:+ " at " +:+ en_location o;
  safeParseResponses _ _ json := Some {[ "name" := json ]};
  userMetadataSafeParse json :=
    Some {| defaultConferencingApp :=
              if decide (json = "") then None
              else Some {| appSlug := None; appLink := Some json |} |};
  getLocationValueForDB l _ := l;
  getDestinationCalendar db _ _ newUserId _ :=
    filter (λ c, dc_userId c = Some newUserId) (db_destinationCalendars db);
  getTeamMembers _ _ _ _ _ := [];
  getCalEventResponses _ b := br_responses (b_row b);
  isPrismaObjOrUndefined j := Some j;
  utcFormat d := d;
  getTimeFormatStringFromUserTimeFormat f :=
    if decide (f = Some 24) then "HH:mm" else "h:mma";
  referencesToCreate _ u _ e _ _ _ :=
    [{| ref_type := "google_calendar"; ref_uid := u_email u;
        ref_meta := ce_title e |}];
  getVideoCallUrlFromCalEvent _ := "https://video.example/call";
  getBookerBaseUrl _ _ := "https://cal.example";
|}.

Definition mkUser (id : Z) (name email : string) (metadata : Json) : User :=
  {| u_id := id; u_name := Some name; u_email := email;
     u_username := Some name; u_timeZone := "UTC"; u_locale := Some "en";
     u_timeFormat := Some 24; u_metadata := metadata |}.

Definition F := mkUser 1 "Fia" "fia@example.com" "".
Definition U1 := mkUser 2 "Una" "una@example.com" "".
Definition U2 :=
  {| u_id := 3; u_name := Some "Ulf"; u_email := "ulf@example.com";
     u_username := Some "ulf"; u_timeZone := "Europe/Oslo";
     u_locale := Some "nb"; u_timeFormat := Some 12;
     u_metadata := "https://meet.example/ulf" |}.
Definition U3 := mkUser 4 "Udo" "udo@example.com" "".

Definition mkHost (u : User) (fixed : bool) : Host :=
  {| user := u; isFixed := fixed; priority := Some 2; weight := Some 100;
     weightAdjustment := Some 0; schedule := None |}.

Definition mkEventType (hosts : list Host) : EventTypeRow :=
  {| et_id := 5; et_slug := "intro"; et_title := "Intro";
     et_eventName := None; et_description := None; et_length := 30;
     et_teamId := Some 7;
     et_team := Some {| team_id := 7; team_name := "Sales";
                        team_parentId := None |};
     et_hosts := hosts; et_users := [];
     et_locationValues := [{| loc_type := "conferencing"; loc_rest := "" |}];
     et_bookingFields := "[]"; et_metadata := "{}";
     et_ownerHideBranding := None |}.

Definition mkBooking (organizer : Z) : BookingRow :=
  {| br_uid := "uid-10"; br_userId := Some organizer;
     br_userPrimaryEmail := None; br_eventTypeId := Some 5;
     br_title := "Intro between Una and Gus at integrations:zoom";
     br_location := Some "integrations:zoom";
     br_startTime := "2025-01-01T10:00:00Z";
     br_endTime := "2025-01-01T10:30:00Z";
     br_responses := "Gus"; br_customInputs := "{}" |}.

Definition guest : Attendee :=
  {| a_id := 100; a_bookingId := Some 10; a_name := "Gus";
     a_email := "gus@example.org"; a_timeZone := "UTC";
     a_locale := Some "en"; a_phoneNumber := None |}.

Definition una_attendee : Attendee :=
  {| a_id := 101; a_bookingId := Some 10; a_name := "Una";
     a_email := "una@example.com"; a_timeZone := "UTC";
     a_locale := Some "en"; a_phoneNumber := None |}.

Definition reminder (id : Z) (trigger : WorkflowTriggerEvents)
  : WorkflowReminder :=
  {| wr_id := id; wr_bookingUid := Some "uid-10"; wr_method := EMAIL;
     wr_referenceId := Some "job";
     wr_workflowStep :=
       Some {| ws_action := EMAIL_HOST; ws_template := "REMINDER";
               ws_workflow := {| wf_trigger := trigger; wf_time := Some 1;
                                 wf_timeUnit := Some "HOUR" |} |} |}.

Definition mkDb (organizer : Z) (hosts : list Host)
    (attendees : list Attendee) : Db :=
  {| db_bookings := {[ 10 := mkBooking organizer ]};
     db_attendees := attendees;
     db_users := [F; U1; U2; U3];
     db_eventTypes := {[ 5 := mkEventType hosts ]};
     db_references :=
       [(10, {| ref_type := "zoom_video"; ref_uid := "old";
                ref_meta := "" |});
        (11, {| ref_type := "google_calendar"; ref_uid := "other";
                ref_meta := "" |})];
     db_credentials := [];
     db_destinationCalendars :=
       [{| dc_id := 1; dc_userId := Some 2; dc_integration := "google";
           dc_externalId := "una" |}];
     db_workflowReminders :=
       [reminder 50 BEFORE_EVENT; reminder 51 EVENT_CANCELLED];
     db_workflows := [] |}.

Definition world (db : Db) : World :=
  {| w_db := db; w_heap := []; w_trace := [] |}.

Definition hostsA : list Host :=
  [mkHost F true; mkHost U1 false; mkHost U2 false].

Definition hostsB : list Host := [mkHost U1 false; mkHost U2 false].

(** A: a fixed host, and the round-robin host Una among the attendees. *)
Definition dbA : Db := mkDb 1 hostsA [guest; una_attendee].

(** B: round-robin hosts only, Una organizes. *)
Definition dbB : Db := mkDb 2 hostsB [guest].

(** The organizer Udo is no longer among the hosts. *)
Definition dbStale : Db := mkDb 4 hostsB [guest].

Definition wA : World := world dbA.

Definition wB : World := world dbB.

Definition mkRun (w : World) (organizer : User) (newUserId : Z)
    (host : Host) (hosts : list Host) : Run :=
  {| r_world := w; r_bookingId := 10; r_newUserId := newUserId;
     r_orgId := None; r_row := mkBooking (u_id organizer);
     r_organizer := organizer; r_eventType := mkEventType hosts;
     r_host := host |}.

(** A, reassigned to Ulf. *)
Definition rA : Run := mkRun wA F 3 (mkHost U2 false) hostsA.

(** B, reassigned to Ulf. *)
Definition rB : Run := mkRun wB U1 3 (mkHost U2 false) hostsB.

(** B, reassigned to Una, who already organizes. *)
Definition rS : Run := mkRun wB U1 2 (mkHost U1 false) hostsB.

(** Where B, reassigned to Ulf, ends, and what it returns. *)
Definition afterB : World := Outcome.final_world rB.

Definition bookedB : Booking := Outcome.mutated_booking rB.

(** Where A, reassigned to Ulf, ends, and what it returns. *)
Definition afterA : World := Outcome.final_world rA.

Definition bookedA : Booking := Outcome.mutated_booking rA.


(** The event of B, reassigned to Ulf, and its place on the heap. *)
Definition eventB : CalendarEvent := Outcome.evt rB.

Definition evtB : nat := Outcome.evt_ref rB.

(** The event type of B as loaded. *)
Definition loadedB : EventType :=
  {| et_row := mkEventType hostsB; et_locations := [0%nat] |}.

(** An event type of the older kind: no hosts, its users Una and Ulf take
    the bookings. *)
Definition usersEventType : EventTypeRow :=
  {| et_id := 5; et_slug := "intro"; et_title := "Intro";
     et_eventName := None; et_description := None; et_length := 30;
     et_teamId := Some 7;
     et_team := Some {| team_id := 7; team_name := "Sales";
                        team_parentId := None |};
     et_hosts := []; et_users := [U1; U2];
     et_locationValues := [];
     et_bookingFields := "[]"; et_metadata := "{}";
     et_ownerHideBranding := None |}.

(** A workflow for new events, active on the event type, with a step for
    the host and a step for the attendee. *)
Definition newEventWorkflow : Workflow :=
  {| w_id := 70; w_trigger := NEW_EVENT; w_isActiveOnAll := false;
     w_teamId := None; w_activeOn := [5]; w_activeOnTeams := [];
     w_steps :=
       (λ action,
          {| ws_action := action; ws_template := "CUSTOM";
             ws_workflow := {| wf_trigger := NEW_EVENT; wf_time := None;
                               wf_timeUnit := None |} |})
         <$> [EMAIL_HOST; EMAIL_ATTENDEE] |}.

(** B with another event type and other workflows. *)
Definition dbWith (eventType : EventTypeRow) (workflows : list Workflow)
  : Db :=
  {| db_bookings := db_bookings dbB; db_attendees := db_attendees dbB;
     db_users := db_users dbB; db_eventTypes := {[ 5 := eventType ]};
     db_references := db_references dbB;
     db_credentials := db_credentials dbB;
     db_destinationCalendars := db_destinationCalendars dbB;
     db_workflowReminders := db_workflowReminders dbB;
     db_workflows := workflows |}.

Definition wU : World := world (dbWith usersEventType []).

(** Where B, reassigned to Ulf, ends, had there been the workflow. *)
Definition wW : World :=
  {| w_db := dbWith (mkEventType hostsB) [newEventWorkflow];
     w_heap := w_heap afterB; w_trace := [] |}.

(** Another meeting, with no reminders. *)
Definition otherBooking : Booking :=
  join_booking dbB 11
    {| br_uid := "uid-11"; br_userId := Some 2;
       br_userPrimaryEmail := None; br_eventTypeId := Some 5;
       br_title := "Intro"; br_location := None;
       br_startTime := "2025-01-02T10:00:00Z";
       br_endTime := "2025-01-02T10:30:00Z";
       br_responses := "Gus"; br_customInputs := "{}" |}.

End Scenario.

(** * Proofs *)

(** ** The heap *)

(** An array of consecutive references includes no later reference. *)
Lemma includes_later (a n x : nat) :
  (a + n ≤ x)%nat → includes (seq a n) x = false.
Proof.
  unfold includes. revert a.
  induction n as [|n IH]; intros a Hx; [done|].
  cbn [seq existsb]. rewrite (IH (S a)) by lia.
  destruct (Nat.eqb_spec x a); [lia | done].
Qed.

Lemma heap_person_app (h h' : Heap) r p :
  heap_person h r = Some p → heap_person (h ++ h') r = Some p.
Proof.
  unfold heap_person. destruct (h !! r) as [o|] eqn:E; [|done].
  intros Hp. by rewrite (lookup_app_l_Some _ _ _ _ E).
Qed.

Lemma snapshot_intro (h : Heap) r e o ps :
  h !! r = Some (OEvent e) →
  heap_person h (ce_organizer e) = Some o →
  Forall2 (λ x p, heap_person h x = Some p) (ce_attendees e) ps →
  snapshot h r = Some (with_people e o ps).
Proof.
  intros Hr Ho Hps. unfold snapshot. rewrite Hr, Ho. cbn.
  apply mapM_Some in Hps. by rewrite Hps.
Qed.

Lemma snapshot_elim (h : Heap) r E :
  snapshot h r = Some E →
  ∃ e, h !! r = Some (OEvent e)
       ∧ heap_person h (ce_organizer e) = Some (ce_organizer E)
       ∧ Forall2 (λ x p, heap_person h x = Some p) (ce_attendees e)
           (ce_attendees E)
       ∧ E = with_people e (ce_organizer E) (ce_attendees E).
Proof.
  unfold snapshot. destruct (h !! r) as [[| |e]|]; try done.
  destruct (heap_person h (ce_organizer e)) as [o|] eqn:Ho; [|done]. cbn.
  destruct (mapM (heap_person h) (ce_attendees e)) as [ps|] eqn:Hm; [|done].
  cbn. intros [= <-]. exists e. cbn. apply mapM_Some in Hm. done.
Qed.

(** Creating objects does not change what a reference denotes. *)
Lemma snapshot_app (h h' : Heap) r E :
  snapshot h r = Some E → snapshot (h ++ h') r = Some E.
Proof.
  intros (e & Hr & Ho & Hps & ->)%snapshot_elim.
  apply snapshot_intro.
  - by apply lookup_app_l_Some.
  - by apply heap_person_app.
  - eapply Forall2_impl; [done|]. intros ???. by apply heap_person_app.
Qed.

(** The attendees, the organizer and the event, created in this order. *)
Lemma snapshot_fresh (h objs : Heap) ps o e :
  objs = OPerson <$> ps →
  ce_organizer e = length (h ++ objs) →
  ce_attendees e = seq (length h) (length objs) →
  snapshot (((h ++ objs) ++ [OPerson o]) ++ [OEvent e])
    (length ((h ++ objs) ++ [OPerson o]))
  = Some (with_people e o ps).
Proof.
  intros -> Ho Hps. apply snapshot_intro.
  - by rewrite lookup_app_r, Nat.sub_diag.
  - unfold heap_person. rewrite Ho.
    rewrite lookup_app_l by (rewrite !length_app; cbn; lia).
    by rewrite lookup_app_r, Nat.sub_diag.
  - rewrite Hps, length_fmap. apply Forall2_same_length_lookup_2.
    + by rewrite length_seq.
    + intros i x p [-> Hi]%lookup_seq Hp.
      unfold heap_person.
      rewrite <- !(assoc_L (++)).
      rewrite lookup_app_r by lia.
      replace (length h + i - length h)%nat with i by lia.
      rewrite lookup_app_l by (rewrite length_fmap; lia).
      by rewrite list_lookup_fmap, Hp.
Qed.

(** ** Running the monad *)

Lemma bind_ok {A B} (m : M A) (k : A → M B) w w' a res :
  m w = (w', inr a) → k a w' = res → bind m k w = res.
Proof. unfold bind. by intros -> <-. Qed.

Lemma bind_err {A B} (m : M A) (k : A → M B) w w' e :
  m w = (w', inl e) → bind m k w = (w', inl e).
Proof. unfold bind. by intros ->. Qed.

(** One step of a run: the first computation of a [bind] returns, by
    evaluation or by the given tactic. *)
Ltac step := eapply bind_ok; [reflexivity|]; cbv beta.
Ltac step_with tac := eapply bind_ok; [tac|]; cbv beta.


Section Proofs.

Context `{Collaborators}.

(** ** The operations *)


Lemma getEventTypesFromDB_run w n row :
  db_eventTypes (w_db w) !! n = Some row →
  getEventTypesFromDB n w
  = ({| w_db := w_db w;
        w_heap := w_heap w ++ (OLocation <$> et_locationValues row);
        w_trace := w_trace w |},
     inr (Some {| et_row := row;
                  et_locations :=
                    seq (length (w_heap w))
                      (length (OLocation <$> et_locationValues row)) |})).
Proof.
  intros Hr. unfold getEventTypesFromDB, bind, get_db. by rewrite Hr.
Qed.

(** The literal handed to [includes] is a new object, so [includes] is
    false for the locations of any loaded event type, and the location is
    the one of the booking. *)
Lemma bookingLocation_run w eventType booking newUser a n :
  et_locations eventType = seq a n →
  (a + n ≤ length (w_heap w))%nat →
  bookingLocation eventType booking newUser w
  = ({| w_db := w_db w;
        w_heap :=
          w_heap w
            ++ [OLocation {| loc_type := OrganizerDefaultConferencingAppType;
                             loc_rest := "" |}];
        w_trace := w_trace w |},
     inr (br_location (b_row booking))).
Proof.
  intros Hl Hn. unfold bookingLocation, bind, alloc.
  by rewrite Hl, includes_later.
Qed.

Lemma prisma_booking_update_run w id userId title email row :
  db_bookings (w_db w) !! id = Some row →
  prisma_booking_update id userId title email w
  = (let db' :=
       set_bookings (w_db w)
         (<[id := update_booking userId title email row]>
            (db_bookings (w_db w))) in
     ({| w_db := db'; w_heap := w_heap w;
         w_trace := w_trace w ++ [BookingUpdate id userId title email] |},
      inr (join_booking db' id (update_booking userId title email row)))).
Proof.
  intros Hr. unfold prisma_booking_update, bind, get_db. by rewrite Hr.
Qed.

Lemma prisma_attendee_update_run w id name email tz loc :
  (∃ a, a ∈ db_attendees (w_db w) ∧ a_id a = id) →
  prisma_attendee_update id name email tz loc w
  = ({| w_db :=
          set_attendees (w_db w)
            (update_attendees id name email tz loc (db_attendees (w_db w)));
        w_heap := w_heap w;
        w_trace := w_trace w ++ [AttendeeUpdate id name email tz loc] |},
     inr tt).
Proof.
  intros (a & Ha & Hid). unfold prisma_attendee_update, bind, get_db.
  assert (existsb (λ a, bool_decide (a_id a = id)) (db_attendees (w_db w))
          = true) as ->; [|done].
  apply existsb_exists. exists a. split; [by apply list_elem_of_In|].
  by apply bool_decide_eq_true.
Qed.

Lemma readEvt_run w r E :
  snapshot (w_heap w) r = Some E → readEvt r w = (w, inr E).
Proof. unfold readEvt. by intros ->. Qed.

Lemma eventManager_reschedule_run w mgr r uid ch rm E :
  snapshot (w_heap w) r = Some E →
  eventManager_reschedule mgr r uid ch rm w
  = ({| w_db := w_db w; w_heap := w_heap w;
        w_trace := w_trace w ++ [Reschedule E uid ch rm] |},
     inr (referencesToCreate (w_db w) mgr.1 mgr.2 E uid ch rm)).
Proof.
  intros Hs. unfold eventManager_reschedule, bind.
  by rewrite (readEvt_run _ _ _ Hs).
Qed.

Lemma sendScheduled_run w r to E :
  snapshot (w_heap w) r = Some E →
  sendRoundRobinScheduledEmailsAndSMS r to w
  = ({| w_db := w_db w; w_heap := w_heap w;
        w_trace := w_trace w ++ [SendRoundRobinScheduled E to] |}, inr tt).
Proof.
  intros Hs. unfold sendRoundRobinScheduledEmailsAndSMS, bind.
  by rewrite (readEvt_run _ _ _ Hs).
Qed.

Lemma sendCancelled_run w r to md E :
  snapshot (w_heap w) r = Some E →
  sendRoundRobinCancelledEmailsAndSMS r to md w
  = ({| w_db := w_db w; w_heap := w_heap w;
        w_trace := w_trace w ++ [SendRoundRobinCancelled E to md] |}, inr tt).
Proof.
  intros Hs. unfold sendRoundRobinCancelledEmailsAndSMS, bind.
  by rewrite (readEvt_run _ _ _ Hs).
Qed.



Lemma heap_person_lt (h : Heap) x p :
  heap_person h x = Some p → (x < length h)%nat.
Proof.
  unfold heap_person. destruct (h !! x) eqn:Hl; [|done].
  intros _. by eapply lookup_lt_Some.
Qed.

Lemma evt_refs_lt (h : Heap) r E :
  snapshot h r = Some E → Forall (λ x, (x < length h)%nat) (evt_refs h r).
Proof.
  intros (e & Hr & Ho & Hps & _)%snapshot_elim.
  unfold evt_refs. rewrite Hr.
  repeat apply Forall_cons_2.
  - by eapply lookup_lt_Some.
  - by eapply heap_person_lt.
  - eapply Forall2_Forall_l; [done|].
    apply Forall_forall. intros p _ x. apply heap_person_lt.
Qed.

Lemma evt_refs_app (h h' : Heap) r E :
  snapshot h r = Some E → evt_refs (h ++ h') r = evt_refs h r.
Proof.
  intros (e & Hr & _)%snapshot_elim. unfold evt_refs.
  by rewrite (lookup_app_l_Some _ _ _ _ Hr), Hr.
Qed.

Lemma lookup_block (h tail : Heap) (ps : list Person) (i : nat) :
  (h ++ (OPerson <$> ps) ++ tail) !! (length h + length ps + i)%nat
  = tail !! i.
Proof.
  rewrite lookup_app_r by lia.
  rewrite lookup_app_r by (rewrite length_fmap; lia).
  f_equal. rewrite length_fmap. lia.
Qed.

Lemma insert_block (h : Heap) (ps : list Person) (a b c x : Obj) :
  <[(length h + length ps + 1)%nat := x]>
    ((h ++ (OPerson <$> ps) ++ [a; b]) ++ [c])
  = h ++ (OPerson <$> ps) ++ [a; x; c].
Proof.
  rewrite <- !(assoc_L (++)).
  rewrite insert_app_r_alt by lia.
  rewrite insert_app_r_alt by (rewrite length_fmap; lia).
  replace (length h + length ps + 1 - length h - length (OPerson <$> ps))%nat
    with 1%nat by (rewrite length_fmap; lia).
  done.
Qed.

(** An event object whose attendees are the block of persons [ps]
    that starts at [length h]. *)
Lemma snapshot_block (h tail : Heap) ps e o r :
  (h ++ (OPerson <$> ps) ++ tail) !! r = Some (OEvent e) →
  ce_attendees e = seq (length h) (length ps) →
  (h ++ (OPerson <$> ps) ++ tail) !! ce_organizer e = Some (OPerson o) →
  snapshot (h ++ (OPerson <$> ps) ++ tail) r = Some (with_people e o ps).
Proof.
  intros Hr Hps Ho. apply snapshot_intro; [done| |].
  - unfold heap_person. by rewrite Ho.
  - rewrite Hps. apply Forall2_same_length_lookup_2.
    + by rewrite length_seq.
    + intros i x p [-> Hi]%lookup_seq Hp. unfold heap_person.
      rewrite lookup_app_r by lia.
      replace (length h + i - length h)%nat with i by lia.
      rewrite lookup_app_l by (rewrite length_fmap; lia).
      by rewrite list_lookup_fmap, Hp.
Qed.

Lemma cloneDeep_run w r E :
  snapshot (w_heap w) r = Some E →
  cloneDeep r w
  = ({| w_db := w_db w;
        w_heap :=
          w_heap w ++ (OPerson <$> ce_attendees E)
            ++ [OPerson (ce_organizer E);
                OEvent (with_people E
                          (length (w_heap w) + length (ce_attendees E))%nat
                          (seq (length (w_heap w))
                             (length (ce_attendees E))))];
        w_trace := w_trace w |},
     inr (length (w_heap w) + length (ce_attendees E) + 1)%nat).
Proof.
  intros Hs. unfold cloneDeep, bind, alloc, alloc_list.
  rewrite (readEvt_run _ _ _ Hs). cbn.
  rewrite !length_app, !length_fmap. cbn [length].
  by rewrite <- !(assoc_L (++)).
Qed.

Lemma setOrganizer_run w r p e :
  w_heap w !! r = Some (OEvent e) →
  setOrganizer r p w
  = ({| w_db := w_db w;
        w_heap :=
          <[r := OEvent (with_people e (length (w_heap w)) (ce_attendees e))]>
            (w_heap w ++ [OPerson p]);
        w_trace := w_trace w |}, inr tt).
Proof.
  intros Hr. unfold setOrganizer, bind, alloc. cbn.
  by rewrite (lookup_app_l_Some _ _ _ _ Hr).
Qed.


(** The loop of [handleWorkflowsUpdate]. *)
Lemma for_each_migrate e url et burl nu rs w :
  for_each rs (migrate_reminder e url et burl nu) w
  = ({| w_db := w_db w; w_heap := w_heap w;
        w_trace := w_trace w ++ (rs ≫= migrate_calls e url et burl nu) |},
     inr tt).
Proof.
  revert w. induction rs as [|wr rs IH]; intros w.
  - cbn. rewrite app_nil_r. by destruct w.
  - cbn [for_each]. unfold bind at 1.
    assert (migrate_reminder e url et burl nu wr w
            = ({| w_db := w_db w; w_heap := w_heap w;
                  w_trace := w_trace w ++ migrate_calls e url et burl nu wr |},
               inr tt)) as ->.
    { unfold migrate_reminder, migrate_calls, bind, scheduleEmailReminder,
        deleteScheduledEmailReminder, emit, ret.
      destruct (wr_workflowStep wr); cbn; [|done].
      by rewrite <- (assoc_L (++)). }
    rewrite IH. cbn. by rewrite <- (assoc_L (++)).
Qed.

Lemma handleWorkflowsUpdate_run w booking newUser evt eventType orgId E :
  snapshot (w_heap w) evt = Some E →
  handleWorkflowsUpdate booking newUser evt eventType orgId w
  = ({| w_db := w_db w; w_heap := w_heap w;
        w_trace :=
          w_trace w
            ++ workflow_calls (w_db w) booking newUser E (et_row eventType)
                 orgId |},
     inr tt).
Proof.
  intros Hs. unfold handleWorkflowsUpdate.
  eapply bind_ok; [reflexivity|]. cbv beta.
  eapply bind_ok; [by apply readEvt_run|]. cbv beta.
  eapply bind_ok; [reflexivity|]. cbv beta zeta.
  eapply bind_ok; [apply for_each_migrate|]. cbv beta.
  eapply bind_ok; [reflexivity|]. cbv beta.
  unfold scheduleWorkflowReminders, emit, workflow_calls, pending_reminders,
    new_event_args.
  cbn. by rewrite <- (assoc_L (++)).
Qed.

Lemma currentRRHost_stored db id hosts a :
  currentRRHost hosts (attendees_of db id) = Some a →
  ∃ a', a' ∈ db_attendees db ∧ a_id a' = a_id a.
Proof.
  unfold currentRRHost. intros [Hin _]%find_some.
  apply list_elem_of_In in Hin.
  apply list_elem_of_filter in Hin as [_ Hin]. by exists a.
Qed.

(** The Mutating step. *)
Lemma mutating_run (r : Run) (w1 : World) (eventType : EventType) a n :
  validated r →
  w_db w1 = w_db (r_world r) →
  et_row eventType = r_eventType r →
  et_locations eventType = seq a n →
  (a + n ≤ length (w_heap w1))%nat →
  (if Outcome.changed r then
     let* location :=
       bookingLocation eventType (Outcome.booking r) (Outcome.newUser r) in
     prisma_booking_update (r_bookingId r) (r_newUserId r)
       (newBookingTitle (et_row eventType) (Outcome.booking r)
          (Outcome.newUser r) (Outcome.newUserT r) location)
       (u_email (Outcome.newUser r))
   else
     match currentRRHost (Outcome.hosts r) (b_attendees (Outcome.booking r)) with
     | Some current =>
         prisma_attendee_update (a_id current)
           (str_or (u_name (Outcome.newUser r)) "")
           (u_email (Outcome.newUser r)) (u_timeZone (Outcome.newUser r))
           (u_locale (Outcome.newUser r)) ;;;
         ret (Outcome.booking r)
     | None => ret (Outcome.booking r)
     end) w1
  = ({| w_db := Outcome.mutated_db r;
        w_heap :=
          w_heap w1
            ++ (if Outcome.changed r
                then [OLocation
                        {| loc_type := OrganizerDefaultConferencingAppType;
                           loc_rest := "" |}]
                else []);
        w_trace := w_trace w1 ++ Outcome.mutation r |},
     inr (Outcome.mutated_booking r)).
Proof.
  intros (Hb & _) Hdb Het Hl Hn.
  unfold Outcome.mutated_booking, Outcome.mutation.
  unfold Outcome.mutated_db. unfold Outcome.current.
  destruct (Outcome.changed r).
  - eapply bind_ok; [by eapply bookingLocation_run|]. cbv beta.
    rewrite prisma_booking_update_run with (row := r_row r)
      by (cbn; by rewrite Hdb).
    cbn. by rewrite Hdb, Het.
  - destruct (currentRRHost _ _) as [cur|] eqn:Hcur.
    + eapply bind_ok.
      { apply prisma_attendee_update_run. rewrite Hdb.
        unfold Outcome.booking in Hcur. cbn [b_attendees join_booking] in Hcur.
        by eapply currentRRHost_stored. }
      cbn. rewrite Hdb, app_nil_r. done.
    + unfold ret. rewrite !app_nil_r, <- Hdb. by destruct w1.
Qed.


Lemma previousHostDestinationCalendar_run (c : bool) userId w :
  (if c then prisma_destinationCalendar_findFirst userId else ret None) w
  = (w, inr (if c
             then find (λ d, bool_decide (dc_userId d = Some userId))
                    (db_destinationCalendars (w_db w))
             else None)).
Proof. by destruct c. Qed.

Lemma evt_snapshot (r : Run) :
  snapshot (Outcome.evt_heap r) (Outcome.evt_ref r) = Some (Outcome.evt r).
Proof.
  unfold Outcome.evt_heap, Outcome.evt_ref.
  erewrite snapshot_fresh; [done| |done|done].
  unfold Outcome.attendee_objects. apply list_fmap_compose.
Qed.

Lemma final_evt_snapshot (r : Run) :
  snapshot (Outcome.final_heap r) (Outcome.evt_ref r) = Some (Outcome.evt r).
Proof. apply snapshot_app, evt_snapshot. Qed.

Lemma final_cancelled_snapshot (r : Run) :
  snapshot (Outcome.final_heap r) (Outcome.cancelled_ref r)
  = Some (Outcome.cancelledEvt r).
Proof.
  unfold Outcome.final_heap, Outcome.cancelled_ref, Outcome.cancelledEvt.
  erewrite snapshot_block; cycle 1.
  - by rewrite lookup_block.
  - done.
  - cbn [ce_organizer with_people]. by rewrite lookup_block.
  - done.
Qed.

(** A validated run returns, and ends as its closed form. *)
Lemma reassign_ok (r : Run) :
  validated r →
  roundRobinManualReassignment (r_bookingId r) (r_newUserId r) (r_orgId r)
    (r_world r)
  = (Outcome.final_world r, inr (Outcome.mutated_booking r)).
Proof.
  intros Hv. pose proof Hv as (Hb & Hu & Het0 & Het & Hh & Hfix).
  unfold roundRobinManualReassignment.
  step. unfold select_booking. rewrite Hb. cbn [fmap option_fmap option_map].
  step. cbn [b_user join_booking]. rewrite Hu.
  step. cbn [b_row join_booking]. rewrite Het0.
  step_with ltac:(by apply getEventTypesFromDB_run).
  step. cbn [et_row]. rewrite Hh.
  step. rewrite Hfix. cbv zeta.
  step_with ltac:(eapply (mutating_run r); [done|done|done|done|]).
  { cbn. by rewrite length_app. }
  cbn [w_db w_heap w_trace].
  fold (Outcome.heap_before r).
  do 4 step. cbn [w_db w_heap w_trace].
  fold (Outcome.attendee_objects r).
  change (hasOrganizerChanged _ _ _) with (Outcome.changed r).
  change (length ((Outcome.heap_before r ++ Outcome.attendee_objects r)
                    ++ [OPerson _])) with (Outcome.evt_ref r).
  lazymatch goal with
  | |- bind _ _ {| w_db := _; w_heap := ?h; w_trace := _ |} = _ =>
      change h with (Outcome.evt_heap r)
  end.
  step.
  step_with ltac:(apply previousHostDestinationCalendar_run).
  step_with ltac:(apply eventManager_reschedule_run, evt_snapshot).
  step.
  step_with ltac:(apply sendScheduled_run, evt_snapshot).
  step_with ltac:(apply cloneDeep_run, evt_snapshot).
  step_with ltac:(eapply setOrganizer_run; cbn [w_heap];
                  by rewrite lookup_block).
  cbn [w_db w_heap w_trace fst snd].
  rewrite insert_block.
  lazymatch goal with
  | |- bind _ _ {| w_db := _; w_heap := ?h; w_trace := _ |} = _ =>
      replace h with (Outcome.final_heap r)
  end.
  2:{ unfold Outcome.final_heap. rewrite !length_app, length_fmap.
      cbn [length with_people ce_attendees].
      by rewrite Nat.add_assoc. }
  step_with ltac:(apply sendCancelled_run, final_cancelled_snapshot).
  cbn [w_db w_heap w_trace].
  unfold Outcome.final_world, Outcome.calls, Outcome.sync_and_notify,
    Outcome.workflows, Outcome.final_db, Outcome.references,
    Outcome.removeFrom, Outcome.credentials, Outcome.uid.
  destruct (Outcome.changed r) eqn:Hch.
  - step_with ltac:(apply handleWorkflowsUpdate_run, final_evt_snapshot).
    unfold ret. cbn [w_db w_heap w_trace et_row].
    do 2 f_equal. rewrite <- !(assoc_L (++)). done.
  - step. unfold ret. cbn [w_db w_heap w_trace].
    do 2 f_equal. rewrite <- !(assoc_L (++)). done.
Qed.

(** ** Failing validation *)

Lemma fail_no_booking w id nid org :
  db_bookings (w_db w) !! id = None →
  roundRobinManualReassignment id nid org w = (w, inl BookingNotFound).
Proof.
  intros Hb. unfold roundRobinManualReassignment.
  step. unfold select_booking. rewrite Hb. by apply bind_err.
Qed.

Lemma fail_no_user w id nid org row :
  db_bookings (w_db w) !! id = Some row →
  br_userId row ≫= db_user (w_db w) = None →
  roundRobinManualReassignment id nid org w = (w, inl BookingNotFound).
Proof.
  intros Hb Hu. unfold roundRobinManualReassignment.
  step. unfold select_booking. rewrite Hb. cbn [fmap option_fmap option_map].
  step. cbn [b_user join_booking]. rewrite Hu. by apply bind_err.
Qed.

Lemma fail_no_eventTypeId w id nid org row organizer :
  db_bookings (w_db w) !! id = Some row →
  br_userId row ≫= db_user (w_db w) = Some organizer →
  num_falsy (br_eventTypeId row) = true →
  roundRobinManualReassignment id nid org w = (w, inl EventTypeNotFound).
Proof.
  intros Hb Hu He. unfold roundRobinManualReassignment.
  step. unfold select_booking. rewrite Hb. cbn [fmap option_fmap option_map].
  step. cbn [b_user join_booking]. rewrite Hu.
  step. cbn [b_row join_booking]. by rewrite He.
Qed.

Lemma fail_no_eventType w id nid org row organizer :
  db_bookings (w_db w) !! id = Some row →
  br_userId row ≫= db_user (w_db w) = Some organizer →
  num_falsy (br_eventTypeId row) = false →
  db_eventTypes (w_db w) !! num_or_zero (br_eventTypeId row) = None →
  roundRobinManualReassignment id nid org w = (w, inl EventTypeNotFound).
Proof.
  intros Hb Hu He Het. unfold roundRobinManualReassignment.
  step. unfold select_booking. rewrite Hb. cbn [fmap option_fmap option_map].
  step. cbn [b_user join_booking]. rewrite Hu.
  step. cbn [b_row join_booking]. rewrite He.
  eapply bind_ok.
  { unfold getEventTypesFromDB, bind, get_db. by rewrite Het. }
  by apply bind_err.
Qed.

Lemma fail_invalid_host w id nid org row organizer et :
  db_bookings (w_db w) !! id = Some row →
  br_userId row ≫= db_user (w_db w) = Some organizer →
  num_falsy (br_eventTypeId row) = false →
  db_eventTypes (w_db w) !! num_or_zero (br_eventTypeId row) = Some et →
  newUserHost (eventTypeHosts et) nid = None →
  roundRobinManualReassignment id nid org w
  = (loaded w et, inl (Coded InvalidRoundRobinHost)).
Proof.
  intros Hb Hu He Het Hh. unfold roundRobinManualReassignment.
  step. unfold select_booking. rewrite Hb. cbn [fmap option_fmap option_map].
  step. cbn [b_user join_booking]. rewrite Hu.
  step. cbn [b_row join_booking]. rewrite He.
  step_with ltac:(by apply getEventTypesFromDB_run).
  step. cbn [et_row]. rewrite Hh. by apply bind_err.
Qed.

Lemma fail_fixed w id nid org row organizer et host :
  db_bookings (w_db w) !! id = Some row →
  br_userId row ≫= db_user (w_db w) = Some organizer →
  num_falsy (br_eventTypeId row) = false →
  db_eventTypes (w_db w) !! num_or_zero (br_eventTypeId row) = Some et →
  newUserHost (eventTypeHosts et) nid = Some host →
  isFixed host = true →
  roundRobinManualReassignment id nid org w
  = (loaded w et, inl (Coded UserIsFixed)).
Proof.
  intros Hb Hu He Het Hh Hfix. unfold roundRobinManualReassignment.
  step. unfold select_booking. rewrite Hb. cbn [fmap option_fmap option_map].
  step. cbn [b_user join_booking]. rewrite Hu.
  step. cbn [b_row join_booking]. rewrite He.
  step_with ltac:(by apply getEventTypesFromDB_run).
  step. cbn [et_row]. rewrite Hh.
  step. by rewrite Hfix.
Qed.

(** A call that returns has passed the validation. *)
Lemma reassign_inv w id nid org w' b :
  roundRobinManualReassignment id nid org w = (w', inr b) →
  ∃ row organizer et host,
    validated {| r_world := w; r_bookingId := id; r_newUserId := nid;
                 r_orgId := org; r_row := row; r_organizer := organizer;
                 r_eventType := et; r_host := host |}.
Proof.
  intros Hrun.
  destruct (db_bookings (w_db w) !! id) as [row|] eqn:Hb;
    [|by rewrite fail_no_booking in Hrun].
  destruct (br_userId row ≫= db_user (w_db w)) as [organizer|] eqn:Hu;
    [|by erewrite fail_no_user in Hrun].
  destruct (num_falsy (br_eventTypeId row)) eqn:He;
    [by erewrite fail_no_eventTypeId in Hrun|].
  destruct (db_eventTypes (w_db w) !! num_or_zero (br_eventTypeId row))
    as [et|] eqn:Het; [|by erewrite fail_no_eventType in Hrun].
  destruct (newUserHost (eventTypeHosts et) nid) as [host|] eqn:Hh;
    [|by erewrite fail_invalid_host in Hrun].
  destruct (isFixed host) eqn:Hfix; [by erewrite fail_fixed in Hrun|].
  by exists row, organizer, et, host.
Qed.

(** A call that returns is a validated run, and ends as its closed form. *)
Lemma reassign_success w id nid org w' b :
  roundRobinManualReassignment id nid org w = (w', inr b) →
  ∃ row organizer et host,
    let r := {| r_world := w; r_bookingId := id; r_newUserId := nid;
                r_orgId := org; r_row := row; r_organizer := organizer;
                r_eventType := et; r_host := host |} in
    validated r ∧ w' = Outcome.final_world r
    ∧ b = Outcome.mutated_booking r.
Proof.
  intros Hrun.
  destruct (reassign_inv _ _ _ _ _ _ Hrun)
    as (row & organizer & et & host & Hv).
  exists row, organizer, et, host. cbv zeta. split; [done|].
  pose proof (reassign_ok _ Hv) as Hok.
  cbn [r_world r_bookingId r_newUserId r_orgId] in Hok.
  rewrite Hok in Hrun. by injection Hrun as <- <-.
Qed.

(** ** Facts about the closed form *)

Lemma newUserHost_id hosts nid h :
  newUserHost hosts nid = Some h → u_id (user h) = nid.
Proof.
  unfold newUserHost. intros [_ Hid]%find_some.
  by apply bool_decide_eq_true in Hid.
Qed.

Lemma db_user_id db id u : db_user db id = Some u → u_id u = id.
Proof.
  unfold db_user. intros [_ Hid]%find_some.
  by apply bool_decide_eq_true in Hid.
Qed.

Lemma changed_true (r : Run) :
  Outcome.changed r = true ↔
  fixedHost (eventTypeHosts (r_eventType r)) = None
  ∧ br_userId (r_row r) ≠ Some (r_newUserId r).
Proof.
  unfold Outcome.changed, hasOrganizerChanged, Outcome.hosts, Outcome.booking.
  cbn [b_row join_booking].
  rewrite andb_true_iff, !negb_true_iff, !bool_decide_eq_false.
  rewrite <- eq_None_not_Some. done.
Qed.

Lemma changed_false (r : Run) :
  Outcome.changed r = false ↔
  is_Some (fixedHost (eventTypeHosts (r_eventType r)))
  ∨ br_userId (r_row r) = Some (r_newUserId r).
Proof.
  unfold Outcome.changed, hasOrganizerChanged, Outcome.hosts, Outcome.booking.
  cbn [b_row join_booking].
  rewrite andb_false_iff, !negb_false_iff, !bool_decide_eq_true. done.
Qed.

Lemma final_bookings (r : Run) :
  db_bookings (Outcome.final_db r)
  = if Outcome.changed r
    then <[r_bookingId r := Outcome.row' r]> (db_bookings (w_db (r_world r)))
    else db_bookings (w_db (r_world r)).
Proof.
  unfold Outcome.final_db, Outcome.mutated_db.
  destruct (Outcome.changed r); [done|]. by destruct (Outcome.current r).
Qed.

Lemma final_users (r : Run) :
  db_users (Outcome.final_db r) = db_users (w_db (r_world r)).
Proof.
  unfold Outcome.final_db, Outcome.mutated_db.
  destruct (Outcome.changed r); [done|]. by destruct (Outcome.current r).
Qed.

Lemma references_of_replace db id new :
  references_of (set_references db (replace_references id new
                                      (db_references db))) id = new.
Proof.
  unfold references_of, replace_references, set_references.
  cbn [db_references].
  rewrite filter_app.
  assert (filter (λ r : Z * Reference, r.1 = id)
            (filter (λ r : Z * Reference, r.1 ≠ id) (db_references db)) = [])
    as ->.
  { induction (db_references db) as [|x l IH]; [done|].
    rewrite (filter_cons (λ r : Z * Reference, r.1 ≠ id)).
    destruct (decide (x.1 ≠ id)) as [Hne|]; [|done].
    rewrite filter_cons. by destruct (decide (x.1 = id)). }
  induction new as [|x l IH]; [done|].
  cbn [fmap list_fmap app]. rewrite filter_cons. cbn.
  destruct (decide (id = id)); [|done]. cbn. f_equal. apply IH.
Qed.

Lemma db_user_final (r : Run) :
  db_user (Outcome.final_db r) = db_user (w_db (r_world r)).
Proof. unfold db_user. by rewrite final_users. Qed.

Lemma mutated_user (r : Run) :
  b_user (Outcome.mutated_booking r)
  = br_userId (b_row (Outcome.mutated_booking r))
      ≫= db_user (w_db (r_world r)).
Proof.
  unfold Outcome.mutated_booking, Outcome.mutated_db.
  by destruct (Outcome.changed r).
Qed.

Lemma final_booking_row (r : Run) :
  validated r →
  db_bookings (Outcome.final_db r) !! r_bookingId r
  = Some (b_row (Outcome.mutated_booking r)).
Proof.
  intros (Hb & _). rewrite final_bookings. unfold Outcome.mutated_booking.
  destruct (Outcome.changed r); [by rewrite lookup_insert_eq | done].
Qed.

(** ** The claims *)

(** C1. For every reassignment that returns: the returned booking is the
    stored one; when the event type has a fixed host (the target host is
    then a host that is not fixed) the organizer of the meeting is the one it
    had before the call; when it has no fixed host the organizer id of the
    meeting after the call is the id of the target host. *)
Theorem organizer_after_reassignment w bookingId newUserId orgId w' booking' :
  roundRobinManualReassignment bookingId newUserId orgId w
  = (w', inr booking') →
  ∃ row eventType targetHost,
    db_bookings (w_db w) !! bookingId = Some row
    ∧ db_eventTypes (w_db w) !! num_or_zero (br_eventTypeId row)
      = Some eventType
    ∧ newUserHost (eventTypeHosts eventType) newUserId = Some targetHost
    ∧ isFixed targetHost = false
    ∧ db_bookings (w_db w') !! bookingId = Some (b_row booking')
    ∧ b_user booking' = br_userId (b_row booking') ≫= db_user (w_db w')
    ∧ (is_Some (fixedHost (eventTypeHosts eventType)) →
       br_userId (b_row booking') = br_userId row
       ∧ b_user booking' = br_userId row ≫= db_user (w_db w))
    ∧ (fixedHost (eventTypeHosts eventType) = None →
       br_userId (b_row booking') = Some (u_id (user targetHost))
       ∧ ∀ u, b_user booking' = Some u → u_id u = u_id (user targetHost)).
Proof.
  intros (row & organizer & et & host & Hv & -> & ->)%reassign_success.
  set (r := {| r_world := w; r_row := row |}) in *.
  pose proof Hv as (Hb & Hu & He & Het & Hh & Hfix).
  cbn [r r_world r_bookingId r_newUserId r_row r_eventType r_host] in *.
  exists row, et, host. unfold Outcome.final_world. cbn [w_db].
  assert (fixedHost (eventTypeHosts et) = None →
          br_userId (b_row (Outcome.mutated_booking r)) = Some newUserId)
    as Hnofix.
  { intros Hnone. unfold Outcome.mutated_booking.
    destruct (Outcome.changed r) eqn:Hch; [done|].
    apply (changed_false r) in Hch as [[? Hfx]|Hsame]; [|done].
    cbn in Hfx. congruence. }
  split_and!; try done.
  - apply (final_booking_row r Hv).
  - by rewrite (mutated_user r), (db_user_final r).
  - intros Hfx.
    assert (Outcome.changed r = false) as Hch
      by (apply (changed_false r); by left).
    unfold Outcome.mutated_booking. by rewrite Hch.
  - intros Hnone. rewrite (newUserHost_id _ _ _ Hh). split; [by apply Hnofix|].
    intros u. rewrite (mutated_user r), (Hnofix Hnone). cbn.
    apply db_user_id.
Qed.

Lemma mutation_not_sync (r : Run) :
  Forall (λ ev, ∀ e u c rm, ev ≠ Reschedule e u c rm) (Outcome.mutation r).
Proof.
  unfold Outcome.mutation.
  destruct (Outcome.changed r); [|destruct (Outcome.current r)];
    repeat constructor; done.
Qed.

Lemma workflow_calls_not_sync db b nu e et org :
  Forall (λ ev, ∀ e' u c rm, ev ≠ Reschedule e' u c rm)
    (workflow_calls db b nu e et org).
Proof.
  unfold workflow_calls. apply Forall_app. split; [|by repeat constructor].
  apply Forall_forall. intros ev (wr & Hev & _)%list_elem_of_bind.
  unfold migrate_calls in Hev.
  destruct (wr_workflowStep wr); cbn in Hev;
    repeat (apply elem_of_cons in Hev as [->|Hev]; [done|]);
    by apply elem_of_nil in Hev.
Qed.

(** C2. After every reassignment that returns, the stored references of
    the meeting are exactly the list that the one calendar-sync call of the
    reassignment returned: the final database is the database of the moment
    of that call with the references of the meeting replaced by that list. *)
Theorem references_after_reassignment w bookingId newUserId orgId w'
    booking' :
  roundRobinManualReassignment bookingId newUserId orgId w
  = (w', inr booking') →
  ∃ before after db targetHost credentials evt uid changed remove,
    w_trace w'
    = w_trace w ++ before ++ [Reschedule evt uid changed remove] ++ after
    ∧ Forall (λ ev, ∀ e u c rm, ev ≠ Reschedule e u c rm) (before ++ after)
    ∧ u_id (user targetHost) = newUserId
    ∧ credentials
      = filter (λ c, cred_userId c = Some newUserId) (db_credentials db)
    ∧ w_db w'
      = set_references db
          (replace_references bookingId
             (referencesToCreate db (user targetHost) credentials evt uid
                changed remove)
             (db_references db))
    ∧ references_of (w_db w') bookingId
      = referencesToCreate db (user targetHost) credentials evt uid changed
          remove.
Proof.
  intros (row & organizer & et & host & Hv & -> & ->)%reassign_success.
  set (r := {| r_world := w; r_row := row |}) in *.
  pose proof Hv as (_ & _ & _ & _ & Hh & _).
  apply newUserHost_id in Hh. cbn in Hh.
  exists (Outcome.mutation r),
    ([ReplaceBookingReferences bookingId (Outcome.references r);
      SendRoundRobinScheduled (Outcome.evt r)
        [recipient (Outcome.newUser r) (Outcome.newUserT r)];
      SendRoundRobinCancelled (Outcome.cancelledEvt r)
        [recipient organizer (Outcome.originalOrganizerT r)]
        (et_metadata et)]
       ++ (if Outcome.changed r then Outcome.workflows r else [])),
    (Outcome.mutated_db r), host, (Outcome.credentials r), (Outcome.evt r),
    (Outcome.uid r), (Outcome.changed r), (Outcome.removeFrom r).
  split_and!.
  - done.
  - apply Forall_app. split; [apply mutation_not_sync|].
    apply Forall_app. split; [by repeat constructor|].
    destruct (Outcome.changed r); [|done].
    apply workflow_calls_not_sync.
  - done.
  - unfold Outcome.credentials, Outcome.newUser. cbn [r_host r]. by rewrite Hh.
  - done.
  - apply references_of_replace.
Qed.

(** C4. Whatever the hosts of the event type, a call whose target host is
    fixed throws [UserIsFixed]; the database and the trace of calls are as
    they were. *)
Theorem fixed_target_fails w bookingId newUserId orgId row organizer
    eventType targetHost :
  db_bookings (w_db w) !! bookingId = Some row →
  br_userId row ≫= db_user (w_db w) = Some organizer →
  num_falsy (br_eventTypeId row) = false →
  db_eventTypes (w_db w) !! num_or_zero (br_eventTypeId row)
  = Some eventType →
  newUserHost (eventTypeHosts eventType) newUserId = Some targetHost →
  isFixed targetHost = true →
  ∃ w', roundRobinManualReassignment bookingId newUserId orgId w
        = (w', inl (Coded UserIsFixed))
        ∧ w_db w' = w_db w ∧ w_trace w' = w_trace w.
Proof.
  intros Hb Hu He Het Hh Hfix. exists (loaded w eventType).
  split; [by eapply fail_fixed|done].
Qed.

(** C5. A call whose target id is the id of none of the hosts of the event
    type throws [InvalidRoundRobinHost], and nothing was written: the
    database and the trace of calls are as they were. *)
Theorem invalid_target_fails w bookingId newUserId orgId row organizer
    eventType :
  db_bookings (w_db w) !! bookingId = Some row →
  br_userId row ≫= db_user (w_db w) = Some organizer →
  num_falsy (br_eventTypeId row) = false →
  db_eventTypes (w_db w) !! num_or_zero (br_eventTypeId row)
  = Some eventType →
  Forall (λ host, u_id (user host) ≠ newUserId) (eventTypeHosts eventType) →
  ∃ w', roundRobinManualReassignment bookingId newUserId orgId w
        = (w', inl (Coded InvalidRoundRobinHost))
        ∧ w_db w' = w_db w ∧ w_trace w' = w_trace w.
Proof.
  intros Hb Hu He Het Hall. exists (loaded w eventType).
  split; [|done]. eapply fail_invalid_host; [done..|].
  unfold newUserHost.
  destruct (find _ _) as [h|] eqn:Hf; [|done].
  apply find_some in Hf as [Hin Hid].
  apply bool_decide_eq_true in Hid.
  rewrite Forall_forall in Hall.
  by destruct (Hall h (proj2 (list_elem_of_In _ _) Hin)).
Qed.

Lemma not_workflow_before (r : Run) :
  Forall (λ ev, is_workflow_call ev = false)
    (Outcome.mutation r ++ Outcome.sync_and_notify r).
Proof.
  apply Forall_app. split; [|by repeat constructor].
  unfold Outcome.mutation.
  destruct (Outcome.changed r); [|destruct (Outcome.current r)];
    by repeat constructor.
Qed.

Lemma update_attendees_elem id name email tz loc ats a' :
  a' ∈ update_attendees id name email tz loc ats →
  (a_id a' = id → a_name a' = name ∧ a_email a' = email
                  ∧ a_timeZone a' = tz ∧ a_locale a' = loc)
  ∧ (a_id a' ≠ id → a' ∈ ats).
Proof.
  unfold update_attendees. intros (a & -> & Ha)%list_elem_of_fmap.
  case_bool_decide as Hid; cbn; split; done.
Qed.

(** C6. With a fixed host on the event type and an attendee of the booking
    whose email is that of a round-robin host, reassigning to a host that is
    not fixed returns the booking as it was loaded (the booking table is
    untouched, so the organizer stays), writes the name, email, time zone and
    locale of the new host onto the attendee record with the id of the
    matching attendee and onto no other, and makes no call of the workflow
    migration. *)
Theorem attendee_substitution (r : Run) (current : Attendee) :
  validated r →
  is_Some (fixedHost (eventTypeHosts (r_eventType r))) →
  currentRRHost (eventTypeHosts (r_eventType r))
    (attendees_of (w_db (r_world r)) (r_bookingId r)) = Some current →
  ∃ w' calls,
    roundRobinManualReassignment (r_bookingId r) (r_newUserId r) (r_orgId r)
      (r_world r)
    = (w', inr (join_booking (w_db (r_world r)) (r_bookingId r) (r_row r)))
    ∧ db_bookings (w_db w') = db_bookings (w_db (r_world r))
    ∧ db_attendees (w_db w')
      = update_attendees (a_id current) (str_or (u_name (user (r_host r))) "")
          (u_email (user (r_host r))) (u_timeZone (user (r_host r)))
          (u_locale (user (r_host r))) (db_attendees (w_db (r_world r)))
    ∧ (∃ a, a ∈ db_attendees (w_db w') ∧ a_id a = a_id current)
    ∧ (∀ a, a ∈ db_attendees (w_db w') → a_id a = a_id current →
            a_name a = str_or (u_name (user (r_host r))) ""
            ∧ a_email a = u_email (user (r_host r))
            ∧ a_timeZone a = u_timeZone (user (r_host r))
            ∧ a_locale a = u_locale (user (r_host r)))
    ∧ (∀ a, a ∈ db_attendees (w_db w') → a_id a ≠ a_id current →
            a ∈ db_attendees (w_db (r_world r)))
    ∧ w_trace w' = w_trace (r_world r) ++ calls
    ∧ Forall (λ ev, is_workflow_call ev = false) calls.
Proof.
  intros Hv Hfx Hcur.
  assert (Outcome.changed r = false) as Hch by (apply changed_false; by left).
  assert (Outcome.current r = Some current) as Hc by done.
  exists (Outcome.final_world r),
    (Outcome.mutation r ++ Outcome.sync_and_notify r).
  assert (db_attendees (Outcome.final_db r)
          = update_attendees (a_id current)
              (str_or (u_name (user (r_host r))) "")
              (u_email (user (r_host r))) (u_timeZone (user (r_host r)))
              (u_locale (user (r_host r))) (db_attendees (w_db (r_world r))))
    as Hats.
  { unfold Outcome.final_db, Outcome.mutated_db. by rewrite Hch, Hc. }
  unfold Outcome.final_world. cbn [w_db w_trace]. rewrite Hats.
  split_and!.
  - rewrite (reassign_ok r Hv). unfold Outcome.mutated_booking.
    by rewrite Hch.
  - by rewrite final_bookings, Hch.
  - done.
  - destruct (currentRRHost_stored _ _ _ _ Hcur) as (a & Ha & Hid).
    exists (update_attendee (str_or (u_name (user (r_host r))) "")
              (u_email (user (r_host r))) (u_timeZone (user (r_host r)))
              (u_locale (user (r_host r))) a).
    split; [|done]. unfold update_attendees.
    apply list_elem_of_fmap. exists a. split; [|done].
    by rewrite bool_decide_eq_true_2.
  - intros a Ha. apply (update_attendees_elem _ _ _ _ _ _ _ Ha).
  - intros a Ha. apply (update_attendees_elem _ _ _ _ _ _ _ Ha).
  - unfold Outcome.calls. by rewrite Hch, app_nil_r, (assoc_L (++)).
  - apply not_workflow_before.
Qed.

Lemma pending_has_step db b wr :
  wr ∈ pending_reminders db b → is_Some (wr_workflowStep wr).
Proof.
  unfold pending_reminders. intros Hin%list_elem_of_In.
  apply filter_In in Hin as [_ Hp]. unfold pending_host_email_reminder in Hp.
  destruct (wr_workflowStep wr); [done|].
  by rewrite andb_false_r in Hp.
Qed.

(** Where the two calls of the [i]-th turn are. *)
Lemma bind_pairs {A B} (f : A → list B) (a b : A → B) (rs : list A) :
  (∀ x, x ∈ rs → f x = [a x; b x]) →
  ∀ i x, rs !! i = Some x →
    (rs ≫= f) !! (2 * i)%nat = Some (a x)
    ∧ (rs ≫= f) !! (2 * i + 1)%nat = Some (b x).
Proof.
  induction rs as [|y rs IH]; intros Hf i x Hi; [done|].
  cbn [mbind list_bind]. rewrite (Hf y) by apply list_elem_of_here.
  destruct i as [|i]; cbn in Hi.
  - by injection Hi as ->.
  - replace (2 * S i)%nat with (S (S (2 * i))) by lia.
    cbn. apply IH; [|done].
    intros z Hz. apply Hf. by apply list_elem_of_further.
Qed.

Lemma changed_organizer (r : Run) :
  Outcome.changed r = true ↔
  br_userId (b_row (Outcome.mutated_booking r)) ≠ br_userId (r_row r).
Proof.
  unfold Outcome.mutated_booking. split.
  - intros Hch. rewrite Hch. apply changed_true in Hch as [_ Hne].
    unfold Outcome.row', update_booking. cbn. congruence.
  - destruct (Outcome.changed r); [done|]. by cbn.
Qed.

(** C7. The calls of the workflow migration are made exactly when the
    organizer of the returned booking differs from the stored one; and then,
    for the [i]-th pending host-email reminder, the migration first
    schedules the replacement addressed to the new organizer and carrying
    the trigger, time and template of the reminder (call [2 * i]) and next
    deletes the reminder (call [2 * i + 1]); so after any number [n] of
    calls of the migration, a reminder that is deleted has its replacement
    scheduled. *)
Theorem workflow_migration (r : Run) :
  validated r →
  ∃ w' booking' calls,
    roundRobinManualReassignment (r_bookingId r) (r_newUserId r) (r_orgId r)
      (r_world r) = (w', inr booking')
    ∧ w_trace w' = w_trace (r_world r) ++ calls
    ∧ (Exists (λ ev, is_workflow_call ev = true) calls ↔
       br_userId (b_row booking') ≠ br_userId (r_row r))
    ∧ (br_userId (b_row booking') ≠ br_userId (r_row r) →
       ∃ before evt url bookerUrl args,
         let reminders := pending_reminders (w_db w') booking' in
         let migration :=
           reminders ≫= migrate_calls evt url (r_eventType r) bookerUrl
                          (user (r_host r)) in
         calls = before ++ migration ++ [ScheduleWorkflowReminders args]
         ∧ Forall (λ ev, is_workflow_call ev = false) before
         ∧ ∀ i wr, reminders !! i = Some wr →
             ∃ step replacementArgs,
               wr_workflowStep wr = Some step
               ∧ er_sendTo replacementArgs = u_email (user (r_host r))
               ∧ er_action replacementArgs = EMAIL_HOST
               ∧ er_triggerEvent replacementArgs
                 = wf_trigger (ws_workflow step)
               ∧ er_time replacementArgs = wf_time (ws_workflow step)
               ∧ er_timeUnit replacementArgs = wf_timeUnit (ws_workflow step)
               ∧ er_template replacementArgs = ws_template step
               ∧ migration !! (2 * i)%nat
                 = Some (ScheduleEmailReminder replacementArgs)
               ∧ migration !! (2 * i + 1)%nat
                 = Some (DeleteScheduledEmailReminder (wr_id wr)
                           (wr_referenceId wr))
               ∧ ∀ n, take n migration !! (2 * i + 1)%nat
                      = Some (DeleteScheduledEmailReminder (wr_id wr)
                                (wr_referenceId wr)) →
                      take n migration !! (2 * i)%nat
                      = Some (ScheduleEmailReminder replacementArgs)).
Proof.
  intros Hv.
  exists (Outcome.final_world r), (Outcome.mutated_booking r),
    (Outcome.calls r).
  split_and!; [by apply reassign_ok|done| |].
  - rewrite <- changed_organizer. unfold Outcome.calls.
    pose proof (not_workflow_before r) as Hnot.
    destruct (Outcome.changed r).
    + split; [done|]. intros _. rewrite (assoc_L (++)).
      apply Exists_app. right. unfold Outcome.workflows, workflow_calls.
      apply Exists_app. right. by constructor.
    + rewrite app_nil_r. split; [|done].
      intros (ev & Hin & Hw)%Exists_exists.
      rewrite Forall_forall in Hnot. apply Hnot in Hin. congruence.
  - intros Hch%changed_organizer.
    exists (Outcome.mutation r ++ Outcome.sync_and_notify r),
      (Outcome.evt r), (getVideoCallUrlFromCalEvent (Outcome.evt r)),
      (getBookerBaseUrl (Outcome.final_db r) (r_orgId r)),
      (new_event_args (Outcome.final_db r) (Outcome.evt r) (r_eventType r)
         (r_orgId r)).
    cbv zeta. split_and!.
    + unfold Outcome.calls. rewrite Hch. by rewrite <- !(assoc_L (++)).
    + apply not_workflow_before.
    + intros i wr Hi.
      destruct (pending_has_step _ _ wr (list_elem_of_lookup_2 _ _ _ Hi))
        as [step Hstep].
      set (f := migrate_calls _ _ _ _ _).
      destruct (bind_pairs f
                  (λ wr, match wr_workflowStep wr with
                         | Some st =>
                             ScheduleEmailReminder
                               (replacement (Outcome.evt r)
                                  (getVideoCallUrlFromCalEvent (Outcome.evt r))
                                  (r_eventType r)
                                  (getBookerBaseUrl (Outcome.final_db r)
                                     (r_orgId r))
                                  (user (r_host r)) st)
                         | None =>
                             DeleteScheduledEmailReminder (wr_id wr)
                               (wr_referenceId wr)
                         end)
                  (λ wr, DeleteScheduledEmailReminder (wr_id wr)
                           (wr_referenceId wr))
                  (pending_reminders (Outcome.final_db r)
                     (Outcome.mutated_booking r))) with (i := i) (x := wr)
        as [Hs Hd]; [|done|].
      { intros x [st Hst]%pending_has_step. unfold f, migrate_calls.
        by rewrite Hst. }
      rewrite Hstep in Hs.
      eexists step, _. split_and!; [done|..|exact Hs|exact Hd|]; try done.
      intros n [_ Hn]%lookup_take_Some.
      apply lookup_take_Some. split; [done|lia].
Qed.

(** The objects of [evt] were created before the copy, those of
    [cancelledEvt] by it and after it. *)
Lemma refs_disjoint (r : Run) :
  evt_refs (Outcome.final_heap r) (Outcome.evt_ref r)
  ## evt_refs (Outcome.final_heap r) (Outcome.cancelled_ref r).
Proof.
  intros x Hx Hy.
  unfold Outcome.final_heap in Hx.
  rewrite (evt_refs_app _ _ _ _ (evt_snapshot r)) in Hx.
  pose proof (evt_refs_lt _ _ _ (evt_snapshot r)) as Hlt.
  rewrite Forall_forall in Hlt. apply Hlt in Hx.
  unfold evt_refs, Outcome.final_heap, Outcome.cancelled_ref in Hy.
  rewrite lookup_block in Hy. cbn in Hy.
  apply elem_of_cons in Hy as [->|Hy]; [lia|].
  apply elem_of_cons in Hy as [->|Hy]; [lia|].
  apply elem_of_seq in Hy. lia.
Qed.

Lemma workflow_calls_evt db b nu e et org :
  Forall (λ ev,
            match ev with
            | ScheduleEmailReminder args => er_evt args = e
            | ScheduleWorkflowReminders args => sw_calendarEvent args = e
            | _ => True
            end)
    (workflow_calls db b nu e et org).
Proof.
  unfold workflow_calls. apply Forall_app. split; [|by repeat constructor].
  apply Forall_forall. intros ev (wr & Hev & _)%list_elem_of_bind.
  unfold migrate_calls in Hev.
  destruct (wr_workflowStep wr); cbn in Hev;
    repeat (apply elem_of_cons in Hev as [->|Hev]; [done|]);
    by apply elem_of_nil in Hev.
Qed.

(** C8. The event of the cancellation notification is the event [evt] of
    the calendar sync and of the scheduled notification with the organizer
    replaced by the previous organizer and nothing else changed; after it
    was built and sent [evt] still denotes the same event, which the
    workflow migration then receives; and the two events share no object. *)
Theorem cancellation_copy (r : Run) :
  validated r →
  ∃ w' booking' evt previous before uid changed remove refs to to' metadata
    after,
    roundRobinManualReassignment (r_bookingId r) (r_newUserId r) (r_orgId r)
      (r_world r) = (w', inr booking')
    ∧ previous
      = organizerPerson (r_organizer r)
          (getTranslation (str_or (u_locale (r_organizer r)) "en") "common")
    ∧ w_trace w'
      = w_trace (r_world r) ++ before
          ++ [Reschedule evt uid changed remove;
              ReplaceBookingReferences (r_bookingId r) refs;
              SendRoundRobinScheduled evt to;
              SendRoundRobinCancelled
                (with_people evt previous (ce_attendees evt)) to' metadata]
          ++ after
    ∧ Forall (λ ev,
                match ev with
                | ScheduleEmailReminder args => er_evt args = evt
                | ScheduleWorkflowReminders args =>
                    sw_calendarEvent args = evt
                | _ => True
                end) after
    ∧ snapshot (w_heap w') (Outcome.evt_ref r) = Some evt
    ∧ snapshot (w_heap w') (Outcome.cancelled_ref r)
      = Some (with_people evt previous (ce_attendees evt))
    ∧ evt_refs (w_heap w') (Outcome.evt_ref r)
      ## evt_refs (w_heap w') (Outcome.cancelled_ref r).
Proof.
  intros Hv.
  exists (Outcome.final_world r), (Outcome.mutated_booking r),
    (Outcome.evt r), (organizerPerson (r_organizer r)
                        (Outcome.originalOrganizerT r)),
    (Outcome.mutation r), (Outcome.uid r), (Outcome.changed r),
    (Outcome.removeFrom r), (Outcome.references r),
    [recipient (Outcome.newUser r) (Outcome.newUserT r)],
    [recipient (r_organizer r) (Outcome.originalOrganizerT r)],
    (et_metadata (r_eventType r)),
    (if Outcome.changed r then Outcome.workflows r else []).
  split_and!.
  - by apply reassign_ok.
  - done.
  - done.
  - destruct (Outcome.changed r); [|done]. apply workflow_calls_evt.
  - apply final_evt_snapshot.
  - apply final_cancelled_snapshot.
  - apply refs_disjoint.
Qed.

(** C10, amended. On an event type with no fixed host, for a booking with
    no attendee whose email is that of a round-robin host, a call whose
    target is the current organizer and whose target is one of the hosts
    returns the booking unchanged; the booking and attendee tables are
    untouched; the calendar sync and the replacement of the references run,
    the scheduled and the cancelled notifications are sent, to the same
    person, and there is no call of the workflow migration. *)
Theorem reassign_to_current_organizer (r : Run) :
  validated r →
  fixedHost (eventTypeHosts (r_eventType r)) = None →
  currentRRHost (eventTypeHosts (r_eventType r))
    (attendees_of (w_db (r_world r)) (r_bookingId r)) = None →
  br_userId (r_row r) = Some (r_newUserId r) →
  ∃ w' evt cancelledEvt refs,
    roundRobinManualReassignment (r_bookingId r) (r_newUserId r) (r_orgId r)
      (r_world r)
    = (w', inr (join_booking (w_db (r_world r)) (r_bookingId r) (r_row r)))
    ∧ db_bookings (w_db w') = db_bookings (w_db (r_world r))
    ∧ db_attendees (w_db w') = db_attendees (w_db (r_world r))
    ∧ references_of (w_db w') (r_bookingId r) = refs
    ∧ w_trace w'
      = w_trace (r_world r)
          ++ [Reschedule evt (br_uid (r_row r)) false [];
              ReplaceBookingReferences (r_bookingId r) refs;
              SendRoundRobinScheduled evt
                [recipient (user (r_host r))
                   (getTranslation (str_or (u_locale (user (r_host r))) "en")
                      "common")];
              SendRoundRobinCancelled cancelledEvt
                [recipient (r_organizer r)
                   (getTranslation (str_or (u_locale (r_organizer r)) "en")
                      "common")]
                (et_metadata (r_eventType r))]
    ∧ ce_organizer evt
      = organizerPerson (user (r_host r))
          (getTranslation (str_or (u_locale (user (r_host r))) "en") "common")
    ∧ ce_organizer cancelledEvt
      = organizerPerson (r_organizer r)
          (getTranslation (str_or (u_locale (r_organizer r)) "en") "common")
    ∧ u_id (user (r_host r)) = u_id (r_organizer r).
Proof.
  intros Hv Hfx Hcur Hsame.
  assert (Outcome.changed r = false) as Hch by (apply changed_false; by right).
  assert (Outcome.current r = None) as Hc by done.
  assert (Outcome.mutated_db r = w_db (r_world r)) as Hdb.
  { unfold Outcome.mutated_db. by rewrite Hch, Hc. }
  assert (Outcome.mutated_booking r = Outcome.booking r) as Hbk.
  { unfold Outcome.mutated_booking. by rewrite Hch. }
  exists (Outcome.final_world r), (Outcome.evt r), (Outcome.cancelledEvt r),
    (Outcome.references r).
  unfold Outcome.final_world. cbn [w_db w_trace].
  split_and!.
  - rewrite (reassign_ok r Hv). by rewrite Hbk.
  - by rewrite final_bookings, Hch.
  - unfold Outcome.final_db. by rewrite Hdb.
  - apply references_of_replace.
  - unfold Outcome.calls, Outcome.mutation, Outcome.sync_and_notify,
      Outcome.removeFrom, Outcome.uid.
    by rewrite Hch, Hc, Hbk.
  - done.
  - done.
  - destruct Hv as (_ & Hu & _ & _ & Hh & _).
    rewrite (newUserHost_id _ _ _ Hh). rewrite Hsame in Hu. cbn in Hu.
    symmetry. by eapply db_user_id.
Qed.

End Proofs.

(** ** Further properties of the code *)

Section Further.

Context {collaborators : Collaborators}.

(** Every call is in exactly one of these cases, in the order of the
    checks. *)
Lemma reassign_cases w id nid org :
  let run := roundRobinManualReassignment id nid org w in
  (db_bookings (w_db w) !! id = None ∧ run = (w, inl BookingNotFound))
  ∨ (∃ row, db_bookings (w_db w) !! id = Some row
            ∧ br_userId row ≫= db_user (w_db w) = None
            ∧ run = (w, inl BookingNotFound))
  ∨ (∃ row organizer,
       db_bookings (w_db w) !! id = Some row
       ∧ br_userId row ≫= db_user (w_db w) = Some organizer
       ∧ (num_falsy (br_eventTypeId row) = true
          ∨ db_eventTypes (w_db w) !! num_or_zero (br_eventTypeId row) = None)
       ∧ run = (w, inl EventTypeNotFound))
  ∨ (∃ row organizer et,
       db_bookings (w_db w) !! id = Some row
       ∧ br_userId row ≫= db_user (w_db w) = Some organizer
       ∧ num_falsy (br_eventTypeId row) = false
       ∧ db_eventTypes (w_db w) !! num_or_zero (br_eventTypeId row) = Some et
       ∧ ((newUserHost (eventTypeHosts et) nid = None
           ∧ run = (loaded w et, inl (Coded InvalidRoundRobinHost)))
          ∨ (∃ host, newUserHost (eventTypeHosts et) nid = Some host
                     ∧ isFixed host = true
                     ∧ run = (loaded w et, inl (Coded UserIsFixed)))))
  ∨ (∃ row organizer et host,
       let r := {| r_world := w; r_bookingId := id; r_newUserId := nid;
                   r_orgId := org; r_row := row; r_organizer := organizer;
                   r_eventType := et; r_host := host |} in
       db_bookings (w_db w) !! id = Some row
       ∧ br_userId row ≫= db_user (w_db w) = Some organizer
       ∧ num_falsy (br_eventTypeId row) = false
       ∧ db_eventTypes (w_db w) !! num_or_zero (br_eventTypeId row) = Some et
       ∧ newUserHost (eventTypeHosts et) nid = Some host
       ∧ isFixed host = false
       ∧ run = (Outcome.final_world r, inr (Outcome.mutated_booking r))).
Proof.
  cbv zeta.
  destruct (db_bookings (w_db w) !! id) as [row|] eqn:Hb;
    [|left; split; [done|by apply fail_no_booking]].
  right.
  destruct (br_userId row ≫= db_user (w_db w)) as [organizer|] eqn:Hu;
    [|left; exists row; split_and!; [done..|by eapply fail_no_user]].
  right.
  destruct (num_falsy (br_eventTypeId row)) eqn:He.
  { left. exists row, organizer. split_and!; [done|done|by left|].
    by eapply fail_no_eventTypeId. }
  destruct (db_eventTypes (w_db w) !! num_or_zero (br_eventTypeId row))
    as [et|] eqn:Het.
  2:{ left. exists row, organizer. split_and!; [done|done|by right|].
      by eapply fail_no_eventType. }
  right.
  destruct (newUserHost (eventTypeHosts et) nid) as [host|] eqn:Hh.
  2:{ left. exists row, organizer, et. split_and!; [done..|].
      left. split; [done|]. by eapply fail_invalid_host. }
  destruct (isFixed host) eqn:Hfix.
  { left. exists row, organizer, et. split_and!; [done..|].
    right. exists host. split_and!; [done..|]. by eapply fail_fixed. }
  right. exists row, organizer, et, host.
  assert (validated {| r_world := w; r_bookingId := id; r_newUserId := nid;
                       r_orgId := org; r_row := row;
                       r_organizer := organizer; r_eventType := et;
                       r_host := host |}) as Hv by done.
  split_and!; [done..|]. apply (reassign_ok _ Hv).
Qed.

(** X1. A call returns a booking exactly when the booking is stored with
    a user, its event type id is truthy and stored, and the target is one
    of the hosts and not a fixed one. *)
Theorem returns_iff_validated w id nid org :
  (∃ w' b, roundRobinManualReassignment id nid org w = (w', inr b))
  ↔ ∃ row organizer et host,
      db_bookings (w_db w) !! id = Some row
      ∧ br_userId row ≫= db_user (w_db w) = Some organizer
      ∧ num_falsy (br_eventTypeId row) = false
      ∧ db_eventTypes (w_db w) !! num_or_zero (br_eventTypeId row) = Some et
      ∧ newUserHost (eventTypeHosts et) nid = Some host
      ∧ isFixed host = false.
Proof.
  split.
  - intros (w' & b & Hrun).
    destruct (reassign_inv _ _ _ _ _ _ Hrun)
      as (row & organizer & et & host & Hv).
    by exists row, organizer, et, host.
  - intros (row & organizer & et & host & Hv).
    eexists _, _.
    apply (reassign_ok {| r_world := w; r_bookingId := id;
                          r_newUserId := nid; r_orgId := org; r_row := row;
                          r_organizer := organizer; r_eventType := et;
                          r_host := host |} Hv).
Qed.


(** X3. The call throws the booking error, leaving the world as it is,
    exactly when the booking is not stored or is stored without a user. *)
Theorem booking_not_found_iff w id nid org :
  roundRobinManualReassignment id nid org w = (w, inl BookingNotFound)
  ↔ select_booking (w_db w) id ≫= b_user = None.
Proof.
  unfold select_booking.
  destruct (reassign_cases w id nid org)
    as [[Hb Hr]|[(row & Hb & Hu & Hr)|[(row & o & Hb & Hu & _ & Hr)
        |[(row & o & et & Hb & Hu & _ & _ & [[_ Hr]|(h & _ & _ & Hr)])
        |(row & o & et & h & Hb & Hu & _ & _ & _ & _ & Hr)]]]];
    cbv zeta in Hr; rewrite Hr, Hb; cbn; try rewrite Hu; by split.
Qed.

(** X4. The call throws the event type error, leaving the world as it
    is, exactly when the booking has a user and its event type id is falsy
    (null or 0) or names no stored event type. *)
Theorem event_type_not_found_iff w id nid org :
  roundRobinManualReassignment id nid org w = (w, inl EventTypeNotFound)
  ↔ ∃ booking,
      select_booking (w_db w) id = Some booking
      ∧ is_Some (b_user booking)
      ∧ (num_falsy (br_eventTypeId (b_row booking)) = true
         ∨ db_eventTypes (w_db w)
             !! num_or_zero (br_eventTypeId (b_row booking)) = None).
Proof.
  unfold select_booking.
  destruct (reassign_cases w id nid org)
    as [[Hb Hr]|[(row & Hb & Hu & Hr)|[(row & o & Hb & Hu & He & Hr)
        |[(row & o & et & Hb & Hu & He & Het & [[_ Hr]|(h & _ & _ & Hr)])
        |(row & o & et & h & Hb & Hu & He & Het & _ & _ & Hr)]]]];
    cbv zeta in Hr; rewrite Hr, Hb; cbn.
  - split; [done|]. by intros (? & ? & _).
  - split; [done|]. intros (b & [= <-] & [u Hb'] & _).
    cbn in Hb'. congruence.
  - split; [|done]. intros _. eexists. split; [done|]. cbn.
    rewrite Hu. split; [done|]. done.
  - split; [done|]. intros (b & [= <-] & _ & [Hf|Hn]); cbn in *; congruence.
  - split; [done|]. intros (b & [= <-] & _ & [Hf|Hn]); cbn in *; congruence.
  - split; [done|]. intros (b & [= <-] & _ & [Hf|Hn]); cbn in *; congruence.
Qed.

(** *** The tables at the end *)

Lemma final_attendees (r : Run) :
  db_attendees (Outcome.final_db r)
  = if Outcome.changed r then db_attendees (w_db (r_world r))
    else match Outcome.current r with
         | Some a =>
             update_attendees (a_id a)
               (str_or (u_name (Outcome.newUser r)) "")
               (u_email (Outcome.newUser r)) (u_timeZone (Outcome.newUser r))
               (u_locale (Outcome.newUser r))
               (db_attendees (w_db (r_world r)))
         | None => db_attendees (w_db (r_world r))
         end.
Proof.
  unfold Outcome.final_db, Outcome.mutated_db.
  destruct (Outcome.changed r); [done|]. by destruct (Outcome.current r).
Qed.

Lemma final_eventTypes (r : Run) :
  db_eventTypes (Outcome.final_db r) = db_eventTypes (w_db (r_world r)).
Proof.
  unfold Outcome.final_db, Outcome.mutated_db.
  destruct (Outcome.changed r); [done|]. by destruct (Outcome.current r).
Qed.

(** X5. Whatever the call does, the other bookings are as before, and of
    the booking itself the uid, the event type id, the location, the start
    and end times, the responses and the custom inputs are as before: the
    update writes the user id, the title and the primary email only. *)
Theorem booking_update_keeps_columns w id nid org w' res :
  roundRobinManualReassignment id nid org w = (w', res) →
  (∀ j, j ≠ id → db_bookings (w_db w') !! j = db_bookings (w_db w) !! j)
  ∧ kept_columns <$> db_bookings (w_db w') !! id
    = kept_columns <$> db_bookings (w_db w) !! id.
Proof.
  intros Hrun.
  destruct (reassign_cases w id nid org)
    as [[_ Hr]|[(row & _ & _ & Hr)|[(row & o & _ & _ & _ & Hr)
        |[(row & o & et & _ & _ & _ & _ & [[_ Hr]|(h & _ & _ & Hr)])
        |(row & o & et & h & Hb & _ & _ & _ & _ & _ & Hr)]]]];
    cbv zeta in Hr; rewrite Hr in Hrun; injection Hrun as <- <-; try done.
  unfold Outcome.final_world. cbn [w_db]. rewrite final_bookings.
  destruct (Outcome.changed _); [|done]. cbn [r_bookingId r_world].
  split.
  - intros j Hj. by rewrite lookup_insert_ne.
  - by rewrite lookup_insert_eq, Hb.
Qed.

(** X6. Whatever the call does, the attendee table has the same records
    in the same order, each with the id, the booking and the phone number
    it had: the attendee update creates and removes nothing. *)
Theorem attendee_update_keeps_records w id nid org w' res :
  roundRobinManualReassignment id nid org w = (w', res) →
  kept_fields <$> db_attendees (w_db w')
  = kept_fields <$> db_attendees (w_db w).
Proof.
  intros Hrun.
  destruct (reassign_cases w id nid org)
    as [[_ Hr]|[(row & _ & _ & Hr)|[(row & o & _ & _ & _ & Hr)
        |[(row & o & et & _ & _ & _ & _ & [[_ Hr]|(h & _ & _ & Hr)])
        |(row & o & et & h & Hb & _ & _ & _ & _ & _ & Hr)]]]];
    cbv zeta in Hr; rewrite Hr in Hrun; injection Hrun as <- <-; try done.
  unfold Outcome.final_world. cbn [w_db]. rewrite final_attendees.
  destruct (Outcome.changed _); [done|].
  destruct (Outcome.current _); [|done].
  unfold update_attendees. rewrite <- list_fmap_compose.
  apply list_fmap_ext. intros i x _. cbn. by case_bool_decide.
Qed.

(** X7. When the organizer changes (no fixed host, and a target other
    than the organizer) the attendee table is not written, and the booking
    returned lists the attendees as they were: the attendee update is the
    alternative of the organizer change, not a part of it. *)
Theorem organizer_change_keeps_attendees (r : Run) :
  validated r →
  fixedHost (eventTypeHosts (r_eventType r)) = None →
  br_userId (r_row r) ≠ Some (r_newUserId r) →
  ∃ w' b,
    roundRobinManualReassignment (r_bookingId r) (r_newUserId r) (r_orgId r)
      (r_world r) = (w', inr b)
    ∧ db_attendees (w_db w') = db_attendees (w_db (r_world r))
    ∧ b_attendees b
      = attendees_of (w_db (r_world r)) (r_bookingId r).
Proof.
  intros Hv Hfx Hne.
  assert (Outcome.changed r = true) as Hch by by apply changed_true.
  exists (Outcome.final_world r), (Outcome.mutated_booking r).
  split_and!; [by apply reassign_ok| |].
  - unfold Outcome.final_world. cbn [w_db]. by rewrite final_attendees, Hch.
  - unfold Outcome.mutated_booking, Outcome.mutated_db. by rewrite Hch.
Qed.

(** *** Observations on the calls *)

Lemma omap_nil {A B} (f : A → option B) (l : list A) :
  Forall (λ x, f x = None) l → omap f l = [].
Proof.
  induction 1 as [|x l Hx _ IH]; [done|]. cbn. by rewrite Hx, IH.
Qed.

Lemma workflow_calls_only db b nu e et org :
  Forall (λ ev, is_workflow_call ev = true) (workflow_calls db b nu e et org).
Proof.
  unfold workflow_calls. apply Forall_app. split; [|by repeat constructor].
  apply Forall_forall. intros ev (wr & Hev & _)%list_elem_of_bind.
  unfold migrate_calls in Hev.
  destruct (wr_workflowStep wr); cbn in Hev;
    repeat (apply elem_of_cons in Hev as [->|Hev]; [done|]);
    by apply elem_of_nil in Hev.
Qed.

Lemma calls_shape (r : Run) :
  ∃ mutation migration,
    Outcome.calls r
    = mutation ++ Outcome.sync_and_notify r ++ migration
    ∧ Forall (λ ev, is_mutation ev = true) mutation
    ∧ Forall (λ ev, is_workflow_call ev = true) migration.
Proof.
  exists (Outcome.mutation r),
    (if Outcome.changed r then Outcome.workflows r else []).
  split_and!; [done| |].
  - unfold Outcome.mutation.
    destruct (Outcome.changed r); [|destruct (Outcome.current r)];
      by repeat constructor.
  - destruct (Outcome.changed r); [|done]. apply workflow_calls_only.
Qed.

Lemma observe_calls {B} (f : Event → option B) (r : Run) :
  (∀ ev, is_mutation ev = true → f ev = None) →
  (∀ ev, is_workflow_call ev = true → f ev = None) →
  omap f (Outcome.calls r) = omap f (Outcome.sync_and_notify r).
Proof.
  intros Hm Hw.
  destruct (calls_shape r) as (mu & mi & -> & Hmu & Hmi).
  rewrite !omap_app.
  rewrite (omap_nil f mu), (omap_nil f mi), app_nil_r; [done| |].
  - eapply Forall_impl; [done|]. intros ev. apply Hw.
  - eapply Forall_impl; [done|]. intros ev. apply Hm.
Qed.

(** X8. A returning call makes exactly one calendar sync call, for the
    uid of the booking, with the event of the target host as organizer and
    the attendees of the returned booking. Its flag says whether the
    organizer id changed. The calendars to remove the event from are none
    when it did not change, and otherwise the first destination calendar of
    the previous organizer, if any; none of them is someone else's. *)
Theorem sync_call_arguments (r : Run) :
  validated r →
  ∃ w' b calls evt remove,
    roundRobinManualReassignment (r_bookingId r) (r_newUserId r) (r_orgId r)
      (r_world r) = (w', inr b)
    ∧ w_trace w' = w_trace (r_world r) ++ calls
    ∧ sync_calls calls
      = [(evt, br_uid (r_row r),
          bool_decide (br_userId (b_row b) ≠ br_userId (r_row r)), remove)]
    ∧ ce_uid evt = br_uid (r_row r)
    ∧ ce_organizer evt
      = organizerPerson (user (r_host r))
          (getTranslation (str_or (u_locale (user (r_host r))) "en") "common")
    ∧ ce_attendees evt = attendeePerson <$> b_attendees b
    ∧ (br_userId (b_row b) = br_userId (r_row r) → remove = [])
    ∧ (br_userId (b_row b) ≠ br_userId (r_row r) →
       remove
       = option_list
           (find (λ c, bool_decide (dc_userId c = Some (u_id (r_organizer r))))
              (db_destinationCalendars (w_db (r_world r)))))
    ∧ Forall (λ c, dc_userId c = Some (u_id (r_organizer r))) remove.
Proof.
  intros Hv.
  exists (Outcome.final_world r), (Outcome.mutated_booking r),
    (Outcome.calls r), (Outcome.evt r), (Outcome.removeFrom r).
  assert (db_destinationCalendars (Outcome.mutated_db r)
          = db_destinationCalendars (w_db (r_world r))) as Hdc.
  { unfold Outcome.mutated_db.
    destruct (Outcome.changed r); [done|]. by destruct (Outcome.current r). }
  assert (br_uid (b_row (Outcome.mutated_booking r)) = br_uid (r_row r))
    as Huid.
  { unfold Outcome.mutated_booking. by destruct (Outcome.changed r). }
  split_and!.
  - by apply reassign_ok.
  - done.
  - unfold sync_calls. rewrite observe_calls by (by intros []).
    cbn. unfold Outcome.uid. rewrite Huid. do 3 f_equal.
    destruct (Outcome.changed r) eqn:Hch.
    + symmetry. by apply bool_decide_eq_true, changed_organizer.
    + symmetry. apply bool_decide_eq_false. rewrite <- changed_organizer.
      by rewrite Hch.
  - done.
  - done.
  - done.
  - intros Hsame. unfold Outcome.removeFrom.
    destruct (Outcome.changed r) eqn:Hch; [|done].
    by apply changed_organizer in Hch.
  - intros Hch%changed_organizer. unfold Outcome.removeFrom.
    by rewrite Hch, Hdc.
  - unfold Outcome.removeFrom. destruct (Outcome.changed r); [|done].
    destruct (find _ _) as [c|] eqn:Hf; [|done].
    apply find_some in Hf as [_ Hc]. apply bool_decide_eq_true in Hc.
    by repeat constructor.
Qed.

(** X9. A returning call sends exactly two notifications, in this
    order: the scheduled one, for the synced event, to the target host
    alone; and the cancelled one, for that event with the previous organizer
    as organizer, to the previous organizer alone. This is so whether or
    not the organizer changed. *)
Theorem notifications_sent (r : Run) :
  validated r →
  ∃ w' b calls evt,
    roundRobinManualReassignment (r_bookingId r) (r_newUserId r) (r_orgId r)
      (r_world r) = (w', inr b)
    ∧ w_trace w' = w_trace (r_world r) ++ calls
    ∧ (λ c, c.1.1.1) <$> sync_calls calls = [evt]
    ∧ notifications calls
      = [(true, evt,
          [recipient (user (r_host r))
             (getTranslation (str_or (u_locale (user (r_host r))) "en")
                "common")]);
         (false,
          with_people evt
            (organizerPerson (r_organizer r)
               (getTranslation (str_or (u_locale (r_organizer r)) "en")
                  "common"))
            (ce_attendees evt),
          [recipient (r_organizer r)
             (getTranslation (str_or (u_locale (r_organizer r)) "en")
                "common")])].
Proof.
  intros Hv.
  exists (Outcome.final_world r), (Outcome.mutated_booking r),
    (Outcome.calls r), (Outcome.evt r).
  split_and!.
  - by apply reassign_ok.
  - done.
  - unfold sync_calls. by rewrite observe_calls by (by intros []).
  - unfold notifications. by rewrite observe_calls by (by intros []).
Qed.

(** *** The hosts *)

Lemma find_is_Some {A} (p : A → bool) (l : list A) x :
  x ∈ l → p x = true → is_Some (find p l).
Proof.
  intros Hin Hp. destruct (find p l) eqn:Hf; [done|].
  apply list_elem_of_In in Hin.
  pose proof (find_none _ _ Hf _ Hin). congruence.
Qed.

Lemma fallback_hosts et :
  et_hosts et = [] →
  Forall (λ h, isFixed h = false ∧ user h ∈ et_users et) (eventTypeHosts et).
Proof.
  unfold eventTypeHosts. intros ->. apply Forall_forall.
  intros h (u & -> & Hu)%list_elem_of_fmap. done.
Qed.

(** X10. On an event type with no hosts, each user of the event type is
    a valid target: the call returns, and the booking returned and stored
    has the target as organizer. *)
Theorem users_are_round_robin_hosts w id nid org row organizer et u :
  db_bookings (w_db w) !! id = Some row →
  br_userId row ≫= db_user (w_db w) = Some organizer →
  num_falsy (br_eventTypeId row) = false →
  db_eventTypes (w_db w) !! num_or_zero (br_eventTypeId row) = Some et →
  et_hosts et = [] →
  u ∈ et_users et →
  u_id u = nid →
  ∃ w' b,
    roundRobinManualReassignment id nid org w = (w', inr b)
    ∧ br_userId (b_row b) = Some nid
    ∧ db_bookings (w_db w') !! id = Some (b_row b).
Proof.
  intros Hb Hu He Het Hnil Hin Hid.
  pose proof (fallback_hosts et Hnil) as Hall.
  rewrite Forall_forall in Hall.
  destruct (find_is_Some
              (λ host, bool_decide (u_id (user host) = nid))
              (eventTypeHosts et)
              {| user := u; isFixed := false; priority := Some 2;
                 weight := Some 100; weightAdjustment := Some 0;
                 schedule := None |}) as [host Hh].
  { unfold eventTypeHosts. rewrite Hnil. apply list_elem_of_fmap. by exists u. }
  { by apply bool_decide_eq_true. }
  assert (host ∈ eventTypeHosts et) as Hhost.
  { apply find_some in Hh as [Hh _]. by apply list_elem_of_In. }
  destruct (Hall host Hhost) as [Hfix _].
  set (r := {| r_world := w; r_bookingId := id; r_newUserId := nid;
               r_orgId := org; r_row := row; r_organizer := organizer;
               r_eventType := et; r_host := host |}).
  assert (validated r) as Hv by done.
  exists (Outcome.final_world r), (Outcome.mutated_booking r).
  split_and!; [by apply (reassign_ok r)| |by apply (final_booking_row r)].
  unfold Outcome.mutated_booking.
  destruct (Outcome.changed r) eqn:Hch; [done|].
  apply (changed_false r) in Hch as [[f Hf]|Hsame]; [|done].
  cbn in Hf. unfold fixedHost in Hf. apply find_some in Hf as [Hf1 Hf2].
  apply list_elem_of_In in Hf1. destruct (Hall f Hf1). congruence.
Qed.

(** X11. When the organizer changes, the first call is the booking
    update and the second the calendar sync; the row stored is the old one
    with the target as user, the target's email as primary email, and the
    title computed from the stored location; the booking returned is that
    row as selected after the call; and the synced event carries that title
    and, as the organizer's email, the stored primary email. *)
Theorem organizer_change_is_persisted (r : Run) :
  validated r →
  fixedHost (eventTypeHosts (r_eventType r)) = None →
  br_userId (r_row r) ≠ Some (r_newUserId r) →
  ∃ w' b calls after evt remove title,
    roundRobinManualReassignment (r_bookingId r) (r_newUserId r) (r_orgId r)
      (r_world r) = (w', inr b)
    ∧ title
      = newBookingTitle (r_eventType r)
          (join_booking (w_db (r_world r)) (r_bookingId r) (r_row r))
          (user (r_host r))
          (getTranslation (str_or (u_locale (user (r_host r))) "en") "common")
          (br_location (r_row r))
    ∧ db_bookings (w_db w') !! r_bookingId r
      = Some (update_booking (r_newUserId r) title (u_email (user (r_host r)))
                (r_row r))
    ∧ select_booking (w_db w') (r_bookingId r) = Some b
    ∧ w_trace w' = w_trace (r_world r) ++ calls
    ∧ calls
      = [BookingUpdate (r_bookingId r) (r_newUserId r) title
           (u_email (user (r_host r)));
         Reschedule evt (br_uid (r_row r)) true remove] ++ after
    ∧ ce_title evt = title
    ∧ Some (p_email (ce_organizer evt)) = br_userPrimaryEmail (b_row b).
Proof.
  intros Hv Hfx Hne.
  assert (Outcome.changed r = true) as Hch by by apply changed_true.
  exists (Outcome.final_world r), (Outcome.mutated_booking r),
    (Outcome.calls r),
    ([ReplaceBookingReferences (r_bookingId r) (Outcome.references r);
      SendRoundRobinScheduled (Outcome.evt r)
        [recipient (Outcome.newUser r) (Outcome.newUserT r)];
      SendRoundRobinCancelled (Outcome.cancelledEvt r)
        [recipient (r_organizer r) (Outcome.originalOrganizerT r)]
        (et_metadata (r_eventType r))] ++ Outcome.workflows r),
    (Outcome.evt r), (Outcome.removeFrom r), (Outcome.title r).
  unfold Outcome.final_world. cbn [w_db w_trace].
  split_and!.
  - by apply reassign_ok.
  - done.
  - by rewrite final_bookings, Hch, lookup_insert_eq.
  - unfold select_booking. rewrite final_bookings, Hch, lookup_insert_eq.
    cbn. unfold Outcome.mutated_booking. rewrite Hch.
    unfold join_booking. f_equal.
  - done.
  - unfold Outcome.calls, Outcome.mutation, Outcome.sync_and_notify,
      Outcome.uid, Outcome.mutated_booking.
    by rewrite Hch.
  - unfold Outcome.evt, Outcome.mutated_booking. by rewrite Hch.
  - unfold Outcome.evt, Outcome.mutated_booking. by rewrite Hch.
Qed.

(** *** [handleWorkflowsUpdate] *)

Lemma pending_reminders_spec db b wr :
  wr ∈ pending_reminders db b ↔
  wr ∈ db_workflowReminders db
  ∧ wr_bookingUid wr = Some (br_uid (b_row b))
  ∧ wr_method wr = EMAIL
  ∧ ∃ step, wr_workflowStep wr = Some step
            ∧ ws_action step = EMAIL_HOST
            ∧ wf_trigger (ws_workflow step)
              ∈ [BEFORE_EVENT; NEW_EVENT; AFTER_EVENT].
Proof.
  unfold pending_reminders, pending_host_email_reminder.
  rewrite list_elem_of_In, filter_In, <- list_elem_of_In.
  rewrite !andb_true_iff, !bool_decide_eq_true.
  destruct (wr_workflowStep wr) as [step|].
  - rewrite andb_true_iff, !bool_decide_eq_true. split.
    + intros (Hin & (Hu & Hm) & Ha & Ht). split_and!; [done..|].
      by exists step.
    + intros (Hin & Hu & Hm & st & [= <-] & Ha & Ht). by split_and!.
  - split; [by intros (_ & _ & ?)|]. by intros (_ & _ & _ & st & ? & _).
Qed.

Lemma migrate_calls_deleted e url et burl nu (rs : list WorkflowReminder) :
  deleted_reminders (rs ≫= migrate_calls e url et burl nu)
  = (λ wr, (wr_id wr, wr_referenceId wr)) <$> rs.
Proof.
  unfold deleted_reminders.
  induction rs as [|wr rs IH]; [done|].
  cbn [mbind list_bind]. rewrite omap_app, IH.
  unfold migrate_calls. by destruct (wr_workflowStep wr).
Qed.

Lemma migrate_calls_scheduled e url et burl nu (rs : list WorkflowReminder) :
  Forall (λ wr, is_Some (wr_workflowStep wr)) rs →
  scheduled_reminders (rs ≫= migrate_calls e url et burl nu)
  = omap (λ wr, replacement e url et burl nu <$> wr_workflowStep wr) rs.
Proof.
  unfold scheduled_reminders.
  induction 1 as [|wr rs [step Hstep] _ IH]; [done|].
  cbn [mbind list_bind]. rewrite omap_app, IH.
  unfold migrate_calls. rewrite Hstep. cbn. by rewrite Hstep.
Qed.

Lemma migrate_calls_length e url et burl nu (rs : list WorkflowReminder) :
  Forall (λ wr, is_Some (wr_workflowStep wr)) rs →
  length (rs ≫= migrate_calls e url et burl nu) = (2 * length rs)%nat.
Proof.
  induction 1 as [|wr rs [step Hstep] _ IH]; [done|].
  cbn [mbind list_bind]. rewrite length_app, IH.
  unfold migrate_calls. rewrite Hstep. cbn. lia.
Qed.

Lemma replacements_length {B} (f : WorkflowStep → B)
    (rs : list WorkflowReminder) :
  Forall (λ wr, is_Some (wr_workflowStep wr)) rs →
  length (omap (λ wr, f <$> wr_workflowStep wr) rs) = length rs.
Proof.
  induction 1 as [|wr rs [step Hstep] _ IH]; [done|].
  cbn. rewrite Hstep. cbn. by rewrite IH.
Qed.

(** X12. [handleWorkflowsUpdate], given a reference to an event,
    returns. It makes two calls for each reminder of the booking found by
    its query, and one more. The reminders
    deleted are exactly those found, in order: each is stored, is an email
    reminder of this booking, and has a host email step on a before-event,
    new-event or after-event workflow. As many replacements are scheduled,
    all to the new organizer, for that event, as host emails. *)
Theorem migration_deletes_pending w booking newUser evt eventType orgId e :
  snapshot (w_heap w) evt = Some e →
  ∃ w' calls,
    handleWorkflowsUpdate booking newUser evt eventType orgId w
    = (w', inr tt)
    ∧ w_trace w' = w_trace w ++ calls
    ∧ length calls = (2 * length (pending_reminders (w_db w) booking) + 1)%nat
    ∧ deleted_reminders calls
      = (λ wr, (wr_id wr, wr_referenceId wr))
          <$> pending_reminders (w_db w) booking
    ∧ length (scheduled_reminders calls) = length (deleted_reminders calls)
    ∧ Forall (λ args, er_sendTo args = u_email newUser ∧ er_evt args = e
                      ∧ er_action args = EMAIL_HOST)
        (scheduled_reminders calls)
    ∧ ∀ id ref, (id, ref) ∈ deleted_reminders calls →
        ∃ wr step,
          wr ∈ db_workflowReminders (w_db w)
          ∧ wr_id wr = id
          ∧ wr_bookingUid wr = Some (br_uid (b_row booking))
          ∧ wr_method wr = EMAIL
          ∧ wr_workflowStep wr = Some step
          ∧ ws_action step = EMAIL_HOST
          ∧ wf_trigger (ws_workflow step)
            ∈ [BEFORE_EVENT; NEW_EVENT; AFTER_EVENT].
Proof.
  intros Hs.
  exists {| w_db := w_db w; w_heap := w_heap w;
            w_trace :=
              w_trace w
                ++ workflow_calls (w_db w) booking newUser e
                     (et_row eventType) orgId |},
    (workflow_calls (w_db w) booking newUser e (et_row eventType) orgId).
  assert (Forall (λ wr, is_Some (wr_workflowStep wr))
            (pending_reminders (w_db w) booking)) as Hsteps.
  { apply Forall_forall. intros wr. apply pending_has_step. }
  assert (deleted_reminders
            (workflow_calls (w_db w) booking newUser e (et_row eventType)
               orgId)
          = (λ wr, (wr_id wr, wr_referenceId wr))
              <$> pending_reminders (w_db w) booking) as Hdel.
  { unfold workflow_calls, deleted_reminders. rewrite omap_app. cbn.
    rewrite app_nil_r. apply migrate_calls_deleted. }
  assert (scheduled_reminders
            (workflow_calls (w_db w) booking newUser e (et_row eventType)
               orgId)
          = omap (λ wr, replacement e (getVideoCallUrlFromCalEvent e)
                          (et_row eventType) (getBookerBaseUrl (w_db w) orgId)
                          newUser <$> wr_workflowStep wr)
              (pending_reminders (w_db w) booking)) as Hsch.
  { unfold workflow_calls, scheduled_reminders. rewrite omap_app. cbn.
    rewrite app_nil_r. by apply migrate_calls_scheduled. }
  split_and!; [by apply handleWorkflowsUpdate_run|done|..].
  - unfold workflow_calls. rewrite length_app. cbn [length].
    by rewrite migrate_calls_length.
  - done.
  - by rewrite Hdel, Hsch, length_fmap, replacements_length.
  - rewrite Hsch. apply Forall_forall.
    intros args (wr & _ & Hargs)%list_elem_of_omap.
    destruct (wr_workflowStep wr); [|done]. by injection Hargs as <-.
  - intros id ref. rewrite Hdel.
    intros (wr & [= -> ->] & Hwr)%list_elem_of_fmap.
    apply pending_reminders_spec
      in Hwr as (Hin & Huid & Hm & step & Hst & Ha & Ht).
    exists wr, step. by split_and!.
Qed.

(** X13. With no reminder stored for the booking and no workflow for
    new events, [handleWorkflowsUpdate] makes one call only: it hands the
    workflow scheduler an empty list of workflows, with the event and no
    SMS reminder number. *)
Theorem migration_without_reminders w booking newUser evt eventType orgId e :
  snapshot (w_heap w) evt = Some e →
  Forall (λ wr, wr_bookingUid wr ≠ Some (br_uid (b_row booking)))
    (db_workflowReminders (w_db w)) →
  Forall (λ wf, w_trigger wf ≠ NEW_EVENT) (db_workflows (w_db w)) →
  ∃ w' args,
    handleWorkflowsUpdate booking newUser evt eventType orgId w
    = (w', inr tt)
    ∧ w_trace w' = w_trace w ++ [ScheduleWorkflowReminders args]
    ∧ sw_workflows args = []
    ∧ sw_calendarEvent args = e
    ∧ sw_smsReminderNumber args = None.
Proof.
  intros Hs Hnone Hwf.
  assert (pending_reminders (w_db w) booking = []) as Hp.
  { unfold pending_reminders.
    induction Hnone as [|wr rs Hwr _ IH]; [done|]. cbn.
    unfold pending_host_email_reminder at 1.
    by rewrite (bool_decide_eq_false_2 _ Hwr), IH. }
  assert (List.filter (new_event_workflow_for (et_row eventType))
            (db_workflows (w_db w)) = []) as Hw.
  { induction Hwf as [|wf rs Hx _ IH]; [done|]. cbn.
    unfold new_event_workflow_for at 1.
    by rewrite (bool_decide_eq_false_2 _ Hx), IH. }
  eexists _, (new_event_args (w_db w) e (et_row eventType) orgId).
  split_and!.
  - by apply handleWorkflowsUpdate_run.
  - cbn. unfold workflow_calls. by rewrite Hp.
  - unfold new_event_args. cbn. by rewrite Hw.
  - done.
  - done.
Qed.

(** X14. The last call of [handleWorkflowsUpdate], and the only one of
    its kind, hands over workflows that are stored, are triggered by a new
    event and are cut down to their host email steps; every stored workflow
    for new events that is active on the event type is among them. *)
Theorem new_event_workflows_selected w booking newUser evt eventType orgId e :
  snapshot (w_heap w) evt = Some e →
  ∃ w' before args,
    handleWorkflowsUpdate booking newUser evt eventType orgId w
    = (w', inr tt)
    ∧ w_trace w' = w_trace w ++ before ++ [ScheduleWorkflowReminders args]
    ∧ Forall (λ ev, ∀ a, ev ≠ ScheduleWorkflowReminders a) before
    ∧ Forall (λ wf, w_trigger wf = NEW_EVENT
                    ∧ Forall (λ st, ws_action st = EMAIL_HOST) (w_steps wf)
                    ∧ ∃ stored, stored ∈ db_workflows (w_db w)
                                ∧ wf = include_host_email_steps stored)
        (sw_workflows args)
    ∧ ∀ stored, stored ∈ db_workflows (w_db w) →
        w_trigger stored = NEW_EVENT →
        et_id (et_row eventType) ∈ w_activeOn stored →
        include_host_email_steps stored ∈ sw_workflows args.
Proof.
  intros Hs.
  eexists _,
    (pending_reminders (w_db w) booking
       ≫= migrate_calls e (getVideoCallUrlFromCalEvent e) (et_row eventType)
            (getBookerBaseUrl (w_db w) orgId) newUser),
    (new_event_args (w_db w) e (et_row eventType) orgId).
  split_and!.
  - by apply handleWorkflowsUpdate_run.
  - done.
  - apply Forall_forall. intros ev (wr & Hev & _)%list_elem_of_bind.
    unfold migrate_calls in Hev.
    destruct (wr_workflowStep wr); cbn in Hev;
      repeat (apply elem_of_cons in Hev as [->|Hev]; [done|]);
      by apply elem_of_nil in Hev.
  - apply Forall_forall. cbn.
    intros wf (stored & -> & Hin)%list_elem_of_fmap.
    apply list_elem_of_In, filter_In in Hin as [Hin Hsel].
    unfold new_event_workflow_for in Hsel.
    apply andb_true_iff in Hsel as [Htr _].
    apply bool_decide_eq_true in Htr.
    split_and!; [done| |].
    + cbn. apply Forall_forall. intros st Hst.
      apply list_elem_of_In, filter_In in Hst as [_ Hst].
      by apply bool_decide_eq_true in Hst.
    + exists stored. split; [by apply list_elem_of_In|done].
  - intros stored Hin Htr Hact. cbn.
    apply list_elem_of_fmap. exists stored. split; [done|].
    apply list_elem_of_In, filter_In. split; [by apply list_elem_of_In|].
    unfold new_event_workflow_for.
    rewrite (bool_decide_eq_true_2 _ Htr), (bool_decide_eq_true_2 _ Hact).
    cbn. by rewrite orb_true_r.
Qed.

(** *** A second call *)

(** X15. After a returning call, a second call with the same arguments
    returns too, provided that the target is in the user table. It leaves
    the booking table as the first call left it and returns the same row;
    its calendar sync says that the organizer did not change and removes
    the event from no calendar; it makes no booking update and no call of
    the workflow migration. *)
Theorem reassignment_again (r : Run) :
  validated r →
  is_Some (db_user (w_db (r_world r)) (r_newUserId r)) →
  ∃ w1 b1 w2 b2 calls evt,
    roundRobinManualReassignment (r_bookingId r) (r_newUserId r) (r_orgId r)
      (r_world r) = (w1, inr b1)
    ∧ roundRobinManualReassignment (r_bookingId r) (r_newUserId r) (r_orgId r)
        w1 = (w2, inr b2)
    ∧ db_bookings (w_db w2) = db_bookings (w_db w1)
    ∧ b_row b2 = b_row b1
    ∧ w_trace w2 = w_trace w1 ++ calls
    ∧ sync_calls calls = [(evt, br_uid (r_row r), false, [])]
    ∧ Forall (λ ev, is_workflow_call ev = false) calls
    ∧ ∀ i u t e, BookingUpdate i u t e ∉ calls.
Proof.
  intros Hv [target Htarget].
  pose proof Hv as (Hb & Hu & He & Het & Hh & Hfix).
  assert (br_eventTypeId (b_row (Outcome.mutated_booking r))
          = br_eventTypeId (r_row r)) as Hety.
  { unfold Outcome.mutated_booking. by destruct (Outcome.changed r). }
  assert (br_uid (b_row (Outcome.mutated_booking r)) = br_uid (r_row r))
    as Huid.
  { unfold Outcome.mutated_booking. by destruct (Outcome.changed r). }
  assert (∃ organizer,
            br_userId (b_row (Outcome.mutated_booking r))
              ≫= db_user (w_db (r_world r)) = Some organizer)
    as [organizer Horg].
  { unfold Outcome.mutated_booking.
    destruct (Outcome.changed r); [|by exists (r_organizer r)].
    exists target. done. }
  set (r2 := {| r_world := Outcome.final_world r;
                r_bookingId := r_bookingId r; r_newUserId := r_newUserId r;
                r_orgId := r_orgId r;
                r_row := b_row (Outcome.mutated_booking r);
                r_organizer := organizer; r_eventType := r_eventType r;
                r_host := r_host r |}).
  assert (validated r2) as Hv2.
  { unfold validated, r2. cbn [r_world r_bookingId r_row r_organizer
                                 r_eventType r_newUserId r_host].
    unfold Outcome.final_world. cbn [w_db].
    rewrite final_booking_row, db_user_final, final_eventTypes, Hety by done.
    by split_and!. }
  assert (Outcome.changed r2 = false) as Hch2.
  { apply changed_false. cbn [r_eventType r_row r_newUserId r2].
    destruct (Outcome.changed r) eqn:Hch.
    - right. unfold Outcome.mutated_booking. by rewrite Hch.
    - apply changed_false in Hch as [Hf|Hs]; [by left|right].
      unfold Outcome.mutated_booking.
      by destruct (Outcome.changed r). }
  exists (Outcome.final_world r), (Outcome.mutated_booking r),
    (Outcome.final_world r2), (Outcome.mutated_booking r2),
    (Outcome.calls r2), (Outcome.evt r2).
  split_and!.
  - by apply reassign_ok.
  - by apply (reassign_ok r2).
  - unfold Outcome.final_world at 1. cbn [w_db].
    by rewrite final_bookings, Hch2.
  - unfold Outcome.mutated_booking at 1. by rewrite Hch2.
  - done.
  - unfold sync_calls. rewrite observe_calls by (by intros []).
    cbn. unfold Outcome.uid, Outcome.removeFrom. rewrite Hch2.
    unfold Outcome.mutated_booking at 1. rewrite Hch2. cbn.
    by rewrite Huid.
  - unfold Outcome.calls. rewrite Hch2, app_nil_r.
    apply not_workflow_before.
  - intros i u t e. unfold Outcome.calls, Outcome.mutation.
    rewrite Hch2, app_nil_r.
    destruct (Outcome.current r2); cbn;
      intros Hin;
      repeat (apply elem_of_cons in Hin as [?|Hin]; [done|]);
      by apply elem_of_nil in Hin.
Qed.

(** *** The unused collaborators *)

(** X16. The parser of the user metadata and [getLocationValueForDB]
    have no influence: with any other two in their place every call ends in
    the same world with the same result. *)
Theorem location_helpers_unused parse location id nid org w :
  @roundRobinManualReassignment
    (with_location_helpers collaborators parse location)
    id nid org w
  = roundRobinManualReassignment id nid org w.
Proof.
  set (C := with_location_helpers collaborators parse location).
  destruct (reassign_cases w id nid org)
    as [[Hb Hr]|[(row & Hb & Hu & Hr)|[(row & o & Hb & Hu & [He|Het] & Hr)
        |[(row & o & et & Hb & Hu & He & Het & [[Hh Hr]|(h & Hh & Hf & Hr)])
        |(row & o & et & h & Hb & Hu & He & Het & Hh & Hf & Hr)]]]];
    cbv zeta in Hr; rewrite Hr.
  - by apply (@fail_no_booking C).
  - by eapply (@fail_no_user C).
  - by eapply (@fail_no_eventTypeId C).
  - destruct (num_falsy (br_eventTypeId row)) eqn:He;
      [by eapply (@fail_no_eventTypeId C)|by eapply (@fail_no_eventType C)].
  - by eapply (@fail_invalid_host C).
  - by eapply (@fail_fixed C).
  - assert (validated {| r_world := w; r_bookingId := id; r_newUserId := nid;
                         r_orgId := org; r_row := row; r_organizer := o;
                         r_eventType := et; r_host := h |}) as Hv by done.
    apply (@reassign_ok C _ Hv).
Qed.

End Further.

(** ** The scenarios *)

Import Scenario.

(** C3. In scenario A the attendee record of the round-robin host is
    written with Ulf's name, email, time zone and locale, and the event
    handed to the calendar sync after that still lists Una: it is built
    from the booking as it was loaded before the write. *)
Theorem synced_event_has_stale_attendee :
  let w' := (roundRobinManualReassignment 10 3 None wA).1 in
  (λ a, (a_name a, a_email a, a_timeZone a, a_locale a))
    <$> db_attendees (w_db w')
  = [("Gus", "gus@example.org", "UTC", Some "en");
     ("Ulf", "ulf@example.com", "Europe/Oslo", Some "nb")]
  ∧ (λ e, (λ p, (p_name p, p_email p, p_timeZone p, locale (p_language p)))
            <$> ce_attendees e)
      <$> synced_events (w_trace w')
    = [[("Gus", "gus@example.org", "UTC", "en");
        ("Una", "una@example.com", "UTC", "en")]].
Proof. vm_compute. by split. Qed.

(** C9. In scenario B the event type has a location of the type of the
    organizer's default conferencing app and the new organizer has a default
    conferencing link, and still [bookingLocation] is the current location
    of the booking: the title is computed with it, and the stored location
    stays. *)
Theorem default_conferencing_link_not_used :
  loc_type <$> et_locationValues (mkEventType hostsB)
  = [OrganizerDefaultConferencingAppType]
  ∧ (userMetadataSafeParse (u_metadata U2) ≫= defaultConferencingApp)
      ≫= appLink
    = Some "https://meet.example/ulf"
  ∧ match getEventTypesFromDB 5 wB with
    | (w1, inr (Some eventType)) =>
        (bookingLocation eventType (Outcome.booking rB) U2 w1).2
        = inr (Some "integrations:zoom")
    | _ => False
    end
  ∧ (λ row, (br_title row, br_location row))
      <$> db_bookings
            (w_db (roundRobinManualReassignment 10 3 None wB).1)
          !! 10
    = Some ("Intro between Ulf and Gus at integrations:zoom",
            Some "integrations:zoom").
Proof. vm_compute. by split_and!. Qed.

(** C10, as stated, fails: with no fixed host and no attendee matching a
    round-robin host, the organizer Udo is not among the hosts, and the
    call that targets him throws. *)
Lemma current_organizer_not_a_host :
  db_eventTypes dbStale !! 5 = Some (mkEventType hostsB)
  ∧ br_userId <$> db_bookings dbStale !! 10 = Some (Some 4)
  ∧ fixedHost (eventTypeHosts (mkEventType hostsB)) = None
  ∧ currentRRHost (eventTypeHosts (mkEventType hostsB))
      (attendees_of dbStale 10) = None
  ∧ (roundRobinManualReassignment 10 4 None (world dbStale)).2
    = inl (Coded InvalidRoundRobinHost).
Proof. vm_compute. by split_and!. Qed.

(** ** The theorems at the scenarios *)

(** B, reassigned to Ulf, returns; so Ulf organizes. *)
Lemma organizer_after_reassignment_witness :
  (roundRobinManualReassignment 10 3 None wB
     = (afterB, inr bookedB))
  ∧ (∃ row eventType targetHost,
     db_bookings (w_db wB) !! 10 = Some row
     ∧ db_eventTypes (w_db wB) !! num_or_zero (br_eventTypeId row)
       = Some eventType
     ∧ newUserHost (eventTypeHosts eventType) 3 = Some targetHost
     ∧ isFixed targetHost = false
     ∧ db_bookings (w_db afterB) !! 10 = Some (b_row bookedB)
     ∧ b_user bookedB = br_userId (b_row bookedB) ≫= db_user (w_db afterB)
     ∧ (is_Some (fixedHost (eventTypeHosts eventType)) →
        br_userId (b_row bookedB) = br_userId row
        ∧ b_user bookedB = br_userId row ≫= db_user (w_db wB))
     ∧ (fixedHost (eventTypeHosts eventType) = None →
        br_userId (b_row bookedB) = Some (u_id (user targetHost))
        ∧ ∀ u, b_user bookedB = Some u → u_id u = u_id (user targetHost))).
Proof.
  assert (roundRobinManualReassignment 10 3 None wB = (afterB, inr bookedB))
    as Hrun by (vm_compute; reflexivity).
  split; [exact Hrun|].
  exact (organizer_after_reassignment _ _ _ _ _ _ Hrun).
Defined.

(** B, reassigned to Ulf, returns; so its references are those of
    the sync. *)
Lemma references_after_reassignment_witness :
  (roundRobinManualReassignment 10 3 None wB
     = (afterB, inr bookedB))
  ∧ (∃ before after db targetHost credentials evt uid changed remove,
     w_trace afterB
     = w_trace wB ++ before ++ [Reschedule evt uid changed remove] ++ after
     ∧ Forall (λ ev, ∀ e u c rm, ev ≠ Reschedule e u c rm) (before ++ after)
     ∧ u_id (user targetHost) = 3
     ∧ credentials
       = filter (λ c, cred_userId c = Some 3) (db_credentials db)
     ∧ w_db afterB
       = set_references db
           (replace_references 10
              (referencesToCreate db (user targetHost) credentials evt uid
                 changed remove)
              (db_references db))
     ∧ references_of (w_db afterB) 10
       = referencesToCreate db (user targetHost) credentials evt uid changed
           remove).
Proof.
  assert (roundRobinManualReassignment 10 3 None wB = (afterB, inr bookedB))
    as Hrun by (vm_compute; reflexivity).
  split; [exact Hrun|].
  exact (references_after_reassignment _ _ _ _ _ _ Hrun).
Defined.

(** A, reassigned to the fixed host Fia. *)
Lemma fixed_target_fails_witness :
  (db_bookings (w_db wA) !! 10 = Some (mkBooking 1))
  ∧ (br_userId (mkBooking 1) ≫= db_user (w_db wA) = Some F)
  ∧ (num_falsy (br_eventTypeId (mkBooking 1)) = false)
  ∧ (db_eventTypes (w_db wA) !! num_or_zero (br_eventTypeId (mkBooking 1))
     = Some (mkEventType hostsA))
  ∧ (newUserHost (eventTypeHosts (mkEventType hostsA)) 1 = Some (mkHost F true))
  ∧ (isFixed (mkHost F true) = true)
  ∧ (∃ w', roundRobinManualReassignment 10 1 None wA
     = (w', inl (Coded UserIsFixed))
     ∧ w_db w' = w_db wA ∧ w_trace w' = w_trace wA).
Proof.
  split_and!; [reflexivity..|].
  by apply (fixed_target_fails wA 10 1 None (mkBooking 1) F
              (mkEventType hostsA) (mkHost F true)).
Defined.

(** A, reassigned to a user who is no host. *)
Lemma invalid_target_fails_witness :
  (db_bookings (w_db wA) !! 10 = Some (mkBooking 1))
  ∧ (br_userId (mkBooking 1) ≫= db_user (w_db wA) = Some F)
  ∧ (num_falsy (br_eventTypeId (mkBooking 1)) = false)
  ∧ (db_eventTypes (w_db wA) !! num_or_zero (br_eventTypeId (mkBooking 1))
     = Some (mkEventType hostsA))
  ∧ (Forall (λ host, u_id (user host) ≠ 99) (eventTypeHosts (mkEventType hostsA)))
  ∧ (∃ w', roundRobinManualReassignment 10 99 None wA
     = (w', inl (Coded InvalidRoundRobinHost))
     ∧ w_db w' = w_db wA ∧ w_trace w' = w_trace wA).
Proof.
  assert (Forall (λ host, u_id (user host) ≠ 99)
            (eventTypeHosts (mkEventType hostsA))) as Hall
    by (vm_compute; repeat constructor; discriminate).
  split_and!; [reflexivity..|exact Hall|].
  by apply (invalid_target_fails wA 10 99 None (mkBooking 1) F
              (mkEventType hostsA)).
Defined.

(** A, reassigned to Ulf. *)
Lemma attendee_substitution_witness :
  (validated rA)
  ∧ (is_Some (fixedHost (eventTypeHosts (r_eventType rA))))
  ∧ (currentRRHost (eventTypeHosts (r_eventType rA))
     (attendees_of (w_db (r_world rA)) (r_bookingId rA)) = Some una_attendee)
  ∧ (∃ w' calls,
     roundRobinManualReassignment (r_bookingId rA) (r_newUserId rA) (r_orgId rA)
       (r_world rA)
     = (w', inr (join_booking (w_db (r_world rA)) (r_bookingId rA) (r_row rA)))
     ∧ db_bookings (w_db w') = db_bookings (w_db (r_world rA))
     ∧ db_attendees (w_db w')
       = update_attendees (a_id una_attendee) (str_or (u_name (user (r_host rA))) "")
           (u_email (user (r_host rA))) (u_timeZone (user (r_host rA)))
           (u_locale (user (r_host rA))) (db_attendees (w_db (r_world rA)))
     ∧ (∃ a, a ∈ db_attendees (w_db w') ∧ a_id a = a_id una_attendee)
     ∧ (∀ a, a ∈ db_attendees (w_db w') → a_id a = a_id una_attendee →
             a_name a = str_or (u_name (user (r_host rA))) ""
             ∧ a_email a = u_email (user (r_host rA))
             ∧ a_timeZone a = u_timeZone (user (r_host rA))
             ∧ a_locale a = u_locale (user (r_host rA)))
     ∧ (∀ a, a ∈ db_attendees (w_db w') → a_id a ≠ a_id una_attendee →
             a ∈ db_attendees (w_db (r_world rA)))
     ∧ w_trace w' = w_trace (r_world rA) ++ calls
     ∧ Forall (λ ev, is_workflow_call ev = false) calls).
Proof.
  assert (validated rA) as Hv by (vm_compute; by split_and!).
  assert (is_Some (fixedHost (eventTypeHosts (r_eventType rA)))) as Hfx
    by (vm_compute; by eexists).
  split_and!; [exact Hv|exact Hfx|reflexivity|].
  by apply (attendee_substitution rA una_attendee Hv Hfx).
Defined.

(** B, reassigned to Ulf. *)
Lemma workflow_migration_witness :
  (validated rB)
  ∧ (∃ w' booking' calls,
     roundRobinManualReassignment (r_bookingId rB) (r_newUserId rB) (r_orgId rB)
       (r_world rB) = (w', inr booking')
     ∧ w_trace w' = w_trace (r_world rB) ++ calls
     ∧ (Exists (λ ev, is_workflow_call ev = true) calls ↔
        br_userId (b_row booking') ≠ br_userId (r_row rB))
     ∧ (br_userId (b_row booking') ≠ br_userId (r_row rB) →
        ∃ before evt url bookerUrl args,
          let reminders := pending_reminders (w_db w') booking' in
          let migration :=
            reminders ≫= migrate_calls evt url (r_eventType rB) bookerUrl
                           (user (r_host rB)) in
          calls = before ++ migration ++ [ScheduleWorkflowReminders args]
          ∧ Forall (λ ev, is_workflow_call ev = false) before
          ∧ ∀ i wr, reminders !! i = Some wr →
              ∃ step replacementArgs,
                wr_workflowStep wr = Some step
                ∧ er_sendTo replacementArgs = u_email (user (r_host rB))
                ∧ er_action replacementArgs = EMAIL_HOST
                ∧ er_triggerEvent replacementArgs
                  = wf_trigger (ws_workflow step)
                ∧ er_time replacementArgs = wf_time (ws_workflow step)
                ∧ er_timeUnit replacementArgs = wf_timeUnit (ws_workflow step)
                ∧ er_template replacementArgs = ws_template step
                ∧ migration !! (2 * i)%nat
                  = Some (ScheduleEmailReminder replacementArgs)
                ∧ migration !! (2 * i + 1)%nat
                  = Some (DeleteScheduledEmailReminder (wr_id wr)
                            (wr_referenceId wr))
                ∧ ∀ n, take n migration !! (2 * i + 1)%nat
                       = Some (DeleteScheduledEmailReminder (wr_id wr)
                                 (wr_referenceId wr)) →
                       take n migration !! (2 * i)%nat
                       = Some (ScheduleEmailReminder replacementArgs))).
Proof.
  assert (validated rB) as Hv by (vm_compute; by split_and!).
  split; [exact Hv|]. exact (workflow_migration rB Hv).
Defined.

(** B, reassigned to Ulf. *)
Lemma cancellation_copy_witness :
  (validated rB)
  ∧ (∃ w' booking' evt previous before uid changed remove refs to to' metadata
     after,
     roundRobinManualReassignment (r_bookingId rB) (r_newUserId rB) (r_orgId rB)
       (r_world rB) = (w', inr booking')
     ∧ previous
       = organizerPerson (r_organizer rB)
           (getTranslation (str_or (u_locale (r_organizer rB)) "en") "common")
     ∧ w_trace w'
       = w_trace (r_world rB) ++ before
           ++ [Reschedule evt uid changed remove;
               ReplaceBookingReferences (r_bookingId rB) refs;
               SendRoundRobinScheduled evt to;
               SendRoundRobinCancelled
                 (with_people evt previous (ce_attendees evt)) to' metadata]
           ++ after
     ∧ Forall (λ ev,
                 match ev with
                 | ScheduleEmailReminder args => er_evt args = evt
                 | ScheduleWorkflowReminders args =>
                     sw_calendarEvent args = evt
                 | _ => True
                 end) after
     ∧ snapshot (w_heap w') (Outcome.evt_ref rB) = Some evt
     ∧ snapshot (w_heap w') (Outcome.cancelled_ref rB)
       = Some (with_people evt previous (ce_attendees evt))
     ∧ evt_refs (w_heap w') (Outcome.evt_ref rB)
       ## evt_refs (w_heap w') (Outcome.cancelled_ref rB)).
Proof.
  assert (validated rB) as Hv by (vm_compute; by split_and!).
  split; [exact Hv|]. exact (cancellation_copy rB Hv).
Defined.

(** B, reassigned to Una, who organizes. *)
Lemma reassign_to_current_organizer_witness :
  (validated rS)
  ∧ (fixedHost (eventTypeHosts (r_eventType rS)) = None)
  ∧ (currentRRHost (eventTypeHosts (r_eventType rS))
     (attendees_of (w_db (r_world rS)) (r_bookingId rS)) = None)
  ∧ (br_userId (r_row rS) = Some (r_newUserId rS))
  ∧ (∃ w' evt cancelledEvt refs,
     roundRobinManualReassignment (r_bookingId rS) (r_newUserId rS) (r_orgId rS)
       (r_world rS)
     = (w', inr (join_booking (w_db (r_world rS)) (r_bookingId rS) (r_row rS)))
     ∧ db_bookings (w_db w') = db_bookings (w_db (r_world rS))
     ∧ db_attendees (w_db w') = db_attendees (w_db (r_world rS))
     ∧ references_of (w_db w') (r_bookingId rS) = refs
     ∧ w_trace w'
       = w_trace (r_world rS)
           ++ [Reschedule evt (br_uid (r_row rS)) false [];
               ReplaceBookingReferences (r_bookingId rS) refs;
               SendRoundRobinScheduled evt
                 [recipient (user (r_host rS))
                    (getTranslation (str_or (u_locale (user (r_host rS))) "en")
                       "common")];
               SendRoundRobinCancelled cancelledEvt
                 [recipient (r_organizer rS)
                    (getTranslation (str_or (u_locale (r_organizer rS)) "en")
                       "common")]
                 (et_metadata (r_eventType rS))]
     ∧ ce_organizer evt
       = organizerPerson (user (r_host rS))
           (getTranslation (str_or (u_locale (user (r_host rS))) "en") "common")
     ∧ ce_organizer cancelledEvt
       = organizerPerson (r_organizer rS)
           (getTranslation (str_or (u_locale (r_organizer rS)) "en") "common")
     ∧ u_id (user (r_host rS)) = u_id (r_organizer rS)).
Proof.
  assert (validated rS) as Hv by (vm_compute; by split_and!).
  split_and!; [exact Hv|reflexivity..|].
  by apply (reassign_to_current_organizer rS Hv).
Defined.


(** B, reassigned to Ulf: the booking update. *)
Lemma booking_update_keeps_columns_witness :
  (roundRobinManualReassignment 10 3 None wB = (afterB, inr bookedB))
  ∧ ((∀ j, j ≠ 10 → db_bookings (w_db afterB) !! j = db_bookings (w_db wB) !! j)
   ∧ kept_columns <$> db_bookings (w_db afterB) !! 10
     = kept_columns <$> db_bookings (w_db wB) !! 10).
Proof.
  assert (roundRobinManualReassignment 10 3 None wB = (afterB, inr bookedB))
    as Hrun by (vm_compute; reflexivity).
  split; [exact Hrun|]. exact (booking_update_keeps_columns _ _ _ _ _ _ Hrun).
Defined.

(** A, reassigned to Ulf: the attendee update. *)
Lemma attendee_update_keeps_records_witness :
  (roundRobinManualReassignment 10 3 None wA = (afterA, inr bookedA))
  ∧ (kept_fields <$> db_attendees (w_db afterA)
   = kept_fields <$> db_attendees (w_db wA)).
Proof.
  assert (roundRobinManualReassignment 10 3 None wA = (afterA, inr bookedA))
    as Hrun by (vm_compute; reflexivity).
  split; [exact Hrun|]. exact (attendee_update_keeps_records _ _ _ _ _ _ Hrun).
Defined.

(** B, reassigned to Ulf: the organizer changes. *)
Lemma organizer_change_keeps_attendees_witness :
  (validated rB)
  ∧ (fixedHost (eventTypeHosts (r_eventType rB)) = None)
  ∧ (br_userId (r_row rB) ≠ Some (r_newUserId rB))
  ∧ (∃ w' b,
     roundRobinManualReassignment (r_bookingId rB) (r_newUserId rB) (r_orgId rB)
       (r_world rB) = (w', inr b)
     ∧ db_attendees (w_db w') = db_attendees (w_db (r_world rB))
     ∧ b_attendees b
       = attendees_of (w_db (r_world rB)) (r_bookingId rB)).
Proof.
  assert (validated rB) as Hv by (vm_compute; by split_and!).
  assert (br_userId (r_row rB) ≠ Some (r_newUserId rB)) as Hne
    by (vm_compute; discriminate).
  split_and!; [exact Hv|reflexivity|exact Hne|].
  exact (organizer_change_keeps_attendees rB Hv eq_refl Hne).
Defined.

(** B, reassigned to Ulf. *)
Lemma sync_call_arguments_witness :
  (validated rB)
  ∧ (∃ w' b calls evt remove,
     roundRobinManualReassignment (r_bookingId rB) (r_newUserId rB) (r_orgId rB)
       (r_world rB) = (w', inr b)
     ∧ w_trace w' = w_trace (r_world rB) ++ calls
     ∧ sync_calls calls
       = [(evt, br_uid (r_row rB),
           bool_decide (br_userId (b_row b) ≠ br_userId (r_row rB)), remove)]
     ∧ ce_uid evt = br_uid (r_row rB)
     ∧ ce_organizer evt
       = organizerPerson (user (r_host rB))
           (getTranslation (str_or (u_locale (user (r_host rB))) "en") "common")
     ∧ ce_attendees evt = attendeePerson <$> b_attendees b
     ∧ (br_userId (b_row b) = br_userId (r_row rB) → remove = [])
     ∧ (br_userId (b_row b) ≠ br_userId (r_row rB) →
        remove
        = option_list
            (find (λ c, bool_decide (dc_userId c = Some (u_id (r_organizer rB))))
               (db_destinationCalendars (w_db (r_world rB)))))
     ∧ Forall (λ c, dc_userId c = Some (u_id (r_organizer rB))) remove).
Proof.
  assert (validated rB) as Hv by (vm_compute; by split_and!).
  split; [exact Hv|]. exact (sync_call_arguments rB Hv).
Defined.

(** A, reassigned to Ulf. *)
Lemma notifications_sent_witness :
  (validated rA)
  ∧ (∃ w' b calls evt,
     roundRobinManualReassignment (r_bookingId rA) (r_newUserId rA) (r_orgId rA)
       (r_world rA) = (w', inr b)
     ∧ w_trace w' = w_trace (r_world rA) ++ calls
     ∧ (λ c, c.1.1.1) <$> sync_calls calls = [evt]
     ∧ notifications calls
       = [(true, evt,
           [recipient (user (r_host rA))
              (getTranslation (str_or (u_locale (user (r_host rA))) "en")
                 "common")]);
          (false,
           with_people evt
             (organizerPerson (r_organizer rA)
                (getTranslation (str_or (u_locale (r_organizer rA)) "en")
                   "common"))
             (ce_attendees evt),
           [recipient (r_organizer rA)
              (getTranslation (str_or (u_locale (r_organizer rA)) "en")
                 "common")])]).
Proof.
  assert (validated rA) as Hv by (vm_compute; by split_and!).
  split; [exact Hv|]. exact (notifications_sent rA Hv).
Defined.

(** The event type without hosts: the booking of Una, reassigned to Ulf. *)
Lemma users_are_round_robin_hosts_witness :
  (db_bookings (w_db wU) !! 10 = Some (mkBooking 2))
  ∧ (br_userId (mkBooking 2) ≫= db_user (w_db wU) = Some U1)
  ∧ (num_falsy (br_eventTypeId (mkBooking 2)) = false)
  ∧ (db_eventTypes (w_db wU) !! num_or_zero (br_eventTypeId (mkBooking 2)) = Some usersEventType)
  ∧ (et_hosts usersEventType = [])
  ∧ (U2 ∈ et_users usersEventType)
  ∧ (u_id U2 = 3)
  ∧ (∃ w' b,
     roundRobinManualReassignment 10 3 None wU = (w', inr b)
     ∧ br_userId (b_row b) = Some 3
     ∧ db_bookings (w_db w') !! 10 = Some (b_row b)).
Proof.
  assert (U2 ∈ et_users usersEventType) as Hin
    by apply list_elem_of_further, list_elem_of_here.
  split_and!; [reflexivity..|exact Hin|reflexivity|].
  exact (users_are_round_robin_hosts wU 10 3 None (mkBooking 2) U1
           usersEventType U2 eq_refl eq_refl eq_refl eq_refl eq_refl Hin
           eq_refl).
Defined.

(** B, reassigned to Ulf: what is stored and what is synced. *)
Lemma organizer_change_is_persisted_witness :
  (validated rB)
  ∧ (fixedHost (eventTypeHosts (r_eventType rB)) = None)
  ∧ (br_userId (r_row rB) ≠ Some (r_newUserId rB))
  ∧ (∃ w' b calls after evt remove title,
     roundRobinManualReassignment (r_bookingId rB) (r_newUserId rB) (r_orgId rB)
       (r_world rB) = (w', inr b)
     ∧ title
       = newBookingTitle (r_eventType rB)
           (join_booking (w_db (r_world rB)) (r_bookingId rB) (r_row rB))
           (user (r_host rB))
           (getTranslation (str_or (u_locale (user (r_host rB))) "en") "common")
           (br_location (r_row rB))
     ∧ db_bookings (w_db w') !! r_bookingId rB
       = Some (update_booking (r_newUserId rB) title (u_email (user (r_host rB)))
                 (r_row rB))
     ∧ select_booking (w_db w') (r_bookingId rB) = Some b
     ∧ w_trace w' = w_trace (r_world rB) ++ calls
     ∧ calls
       = [BookingUpdate (r_bookingId rB) (r_newUserId rB) title
            (u_email (user (r_host rB)));
          Reschedule evt (br_uid (r_row rB)) true remove] ++ after
     ∧ ce_title evt = title
     ∧ Some (p_email (ce_organizer evt)) = br_userPrimaryEmail (b_row b)).
Proof.
  assert (validated rB) as Hv by (vm_compute; by split_and!).
  assert (br_userId (r_row rB) ≠ Some (r_newUserId rB)) as Hne
    by (vm_compute; discriminate).
  split_and!; [exact Hv|reflexivity|exact Hne|].
  exact (organizer_change_is_persisted rB Hv eq_refl Hne).
Defined.

(** The migration for B, reassigned to Ulf: one reminder is pending. *)
Lemma migration_deletes_pending_witness :
  (snapshot (w_heap afterB) evtB = Some eventB)
  ∧ (∃ w' calls,
     handleWorkflowsUpdate bookedB U2 evtB loadedB None afterB
     = (w', inr tt)
     ∧ w_trace w' = w_trace afterB ++ calls
     ∧ length calls = (2 * length (pending_reminders (w_db afterB) bookedB) + 1)%nat
     ∧ deleted_reminders calls
       = (λ wr, (wr_id wr, wr_referenceId wr))
           <$> pending_reminders (w_db afterB) bookedB
     ∧ length (scheduled_reminders calls) = length (deleted_reminders calls)
     ∧ Forall (λ args, er_sendTo args = u_email U2 ∧ er_evt args = eventB
                       ∧ er_action args = EMAIL_HOST)
         (scheduled_reminders calls)
     ∧ ∀ id ref, (id, ref) ∈ deleted_reminders calls →
         ∃ wr step,
           wr ∈ db_workflowReminders (w_db afterB)
           ∧ wr_id wr = id
           ∧ wr_bookingUid wr = Some (br_uid (b_row bookedB))
           ∧ wr_method wr = EMAIL
           ∧ wr_workflowStep wr = Some step
           ∧ ws_action step = EMAIL_HOST
           ∧ wf_trigger (ws_workflow step)
             ∈ [BEFORE_EVENT; NEW_EVENT; AFTER_EVENT]).
Proof.
  assert (snapshot (w_heap afterB) evtB = Some eventB) as Hs
    by (vm_compute; reflexivity).
  split; [exact Hs|].
  exact (migration_deletes_pending afterB bookedB U2 evtB loadedB None
           eventB Hs).
Defined.

(** The migration for a meeting without reminders. *)
Lemma migration_without_reminders_witness :
  (snapshot (w_heap afterB) evtB = Some eventB)
  ∧ (Forall (λ wr, wr_bookingUid wr ≠ Some (br_uid (b_row otherBooking)))
     (db_workflowReminders (w_db afterB)))
  ∧ (Forall (λ wf, w_trigger wf ≠ NEW_EVENT) (db_workflows (w_db afterB)))
  ∧ (∃ w' args,
     handleWorkflowsUpdate otherBooking U2 evtB loadedB None afterB
     = (w', inr tt)
     ∧ w_trace w' = w_trace afterB ++ [ScheduleWorkflowReminders args]
     ∧ sw_workflows args = []
     ∧ sw_calendarEvent args = eventB
     ∧ sw_smsReminderNumber args = None).
Proof.
  assert (snapshot (w_heap afterB) evtB = Some eventB) as Hs
    by (vm_compute; reflexivity).
  assert (Forall (λ wr, wr_bookingUid wr ≠ Some (br_uid (b_row otherBooking)))
            (db_workflowReminders (w_db afterB))) as Hnone
    by (vm_compute; repeat constructor; discriminate).
  assert (Forall (λ wf, w_trigger wf ≠ NEW_EVENT)
            (db_workflows (w_db afterB))) as Hwf
    by (vm_compute; constructor).
  split_and!; [exact Hs|exact Hnone|exact Hwf|].
  exact (migration_without_reminders afterB otherBooking U2 evtB loadedB
           None eventB Hs Hnone Hwf).
Defined.

(** The migration for B, with a workflow for new events. *)
Lemma new_event_workflows_selected_witness :
  (snapshot (w_heap wW) evtB = Some eventB)
  ∧ (∃ w' before args,
     handleWorkflowsUpdate bookedB U2 evtB loadedB None wW
     = (w', inr tt)
     ∧ w_trace w' = w_trace wW ++ before ++ [ScheduleWorkflowReminders args]
     ∧ Forall (λ ev, ∀ a, ev ≠ ScheduleWorkflowReminders a) before
     ∧ Forall (λ wf, w_trigger wf = NEW_EVENT
                     ∧ Forall (λ st, ws_action st = EMAIL_HOST) (w_steps wf)
                     ∧ ∃ stored, stored ∈ db_workflows (w_db wW)
                                 ∧ wf = include_host_email_steps stored)
         (sw_workflows args)
     ∧ ∀ stored, stored ∈ db_workflows (w_db wW) →
         w_trigger stored = NEW_EVENT →
         et_id (et_row loadedB) ∈ w_activeOn stored →
         include_host_email_steps stored ∈ sw_workflows args).
Proof.
  assert (snapshot (w_heap wW) evtB = Some eventB) as Hs
    by (vm_compute; reflexivity).
  split; [exact Hs|].
  exact (new_event_workflows_selected wW bookedB U2 evtB loadedB None
           eventB Hs).
Defined.

(** B, reassigned to Ulf, twice. *)
Lemma reassignment_again_witness :
  (validated rB)
  ∧ (is_Some (db_user (w_db (r_world rB)) (r_newUserId rB)))
  ∧ (∃ w1 b1 w2 b2 calls evt,
     roundRobinManualReassignment (r_bookingId rB) (r_newUserId rB) (r_orgId rB)
       (r_world rB) = (w1, inr b1)
     ∧ roundRobinManualReassignment (r_bookingId rB) (r_newUserId rB) (r_orgId rB)
         w1 = (w2, inr b2)
     ∧ db_bookings (w_db w2) = db_bookings (w_db w1)
     ∧ b_row b2 = b_row b1
     ∧ w_trace w2 = w_trace w1 ++ calls
     ∧ sync_calls calls = [(evt, br_uid (r_row rB), false, [])]
     ∧ Forall (λ ev, is_workflow_call ev = false) calls
     ∧ ∀ i u t e, BookingUpdate i u t e ∉ calls).
Proof.
  assert (validated rB) as Hv by (vm_compute; by split_and!).
  assert (is_Some (db_user (w_db (r_world rB)) (r_newUserId rB))) as Hu
    by (vm_compute; by eexists).
  split_and!; [exact Hv|exact Hu|]. exact (reassignment_again rB Hv Hu).
Defined.
